(** * wx-reader: [app.js]

    A shallow embedding of [parseMETAR] (app.js, lines 56-174) together with
    the small part of JavaScript it relies on: [typeof], [String.prototype.split]
    with a one-character separator, [Array.prototype.shift], indexing past the
    end of an array, [ToString] of [undefined], and a backtracking matcher for
    the regular-expression literals of the function, with named capture groups.

    Around it, [parseAPIResponse] (lines 14-40) over the JSON values
    [response.json()] can deliver, [getWeather] (lines 42-54) and the chain of
    [getResults] up to [then(parseMETAR)] (lines 198-199) with [fetch] as a
    parameter and promises taken in their settled state, and [setNodeText]
    (lines 176-187) on one element of the page.  [parseMETAR] is given a
    second time on a store of RegExp objects with their flags and
    [lastIndex], and shown to agree with the first.

    Strings are [string]s of 8-bit characters.  The source works on UTF-16 code
    units; every character test of [parseMETAR] is against an ASCII character or
    an ASCII class, so a code unit outside ASCII behaves like any character for
    which all of these tests fail. *)

From stdpp Require Import gmap strings list fin_maps pretty.
From Stdlib Require Import Ascii.

Open Scope string_scope.
Set Warnings "-clear-no-such-hyp".

(** ** JavaScript values *)

Module JS.

(** What a caller can hand to [parseMETAR].  A number is kept as the bit
    pattern of its binary64; its value is never inspected. *)
#[warnings="-register-all"]
Inductive jsval : Type :=
| JUndefined
| JNull
| JBoolean (b : bool)
| JNumber (bits : Z)
| JBigInt (z : Z)
| JString (s : string)
| JSymbol (description : string)
| JFunction (name : string)
| JObject (props : list (string * jsval)).

(** The [typeof] operator. *)
Definition typeof (v : jsval) : string :=
  match v with
  | JUndefined => "undefined"
  | JNull => "object"
  | JBoolean _ => "boolean"
  | JNumber _ => "number"
  | JBigInt _ => "bigint"
  | JString _ => "string"
  | JSymbol _ => "symbol"
  | JFunction _ => "function"
  | JObject _ => "object"
  end.

(** What [throw] carries: [new Error(msg)], or the [TypeError] the engine
    raises when a property of [undefined] or [null] is read (its message is
    the engine's; V8's wording is used). *)
Inductive exn : Type :=
| Error (message : string)
| TypeError (message : string).

(** A computation either returns or throws. *)
Inductive completion (A : Type) : Type :=
| Return (a : A)
| Throw (e : exn).
Arguments Return {A} a.
Arguments Throw {A} e.

#[global] Instance completion_ret : MRet completion := λ A a, Return a.
#[global] Instance completion_bind : MBind completion := λ A B k c,
  match c with
  | Return a => k a
  | Throw e => Throw e
  end.

(** An element of an array of strings, or a capture group: a string, or
    [undefined] ([None]). *)
Definition ToString (x : option string) : string :=
  match x with
  | Some s => s
  | None => "undefined"
  end.

(** [s.split(sep)] for a separator of one character.  The result is never the
    empty array: [''.split(' ')] is [['']]. *)
Fixpoint split (s : string) (sep : ascii) : list string :=
  match s with
  | "" => [""]
  | String c s' =>
      if Ascii.eqb c sep then "" :: split s' sep
      else match split s' sep with
           | t :: ts => String c t :: ts
           | [] => [String c ""]
           end
  end.

(** [a.shift()]: the first element and the array that remains; [undefined]
    and the same empty array when there is nothing to remove. *)
Definition shift (a : list string) : option string * list string :=
  match a with
  | [] => (None, [])
  | x :: a' => (Some x, a')
  end.

(** [x.length] of a string; reading it from [undefined] throws. *)
Definition length_of (x : option string) : completion nat :=
  match x with
  | Some s => Return (String.length s)
  | None => Throw (TypeError "Cannot read properties of undefined (reading 'length')")
  end.

End JS.
Import JS.

(** ** Regular expressions *)

Module RegExp.

(** The syntax used by the literals of [parseMETAR]. *)
Inductive regex : Type :=
| Bol                                 (* ^ *)
| Eol                                 (* $ *)
| Eps                                 (* the empty pattern *)
| Chr (c : ascii)                     (* a literal character *)
| Cls (p : ascii → bool)              (* a character class *)
| Seq (r1 r2 : regex)                 (* r1r2 *)
| Alt (r1 r2 : regex)                 (* r1|r2 *)
| Opt (r : regex)                     (* r? *)
| Named (name : string) (r : regex)   (* (?<name>r) *)
| Group (r : regex).                  (* (r) *)

Infix "⋅" := Seq (at level 41, right associativity).

(** A literal word, character by character. *)
Fixpoint Lit (s : string) : regex :=
  match s with
  | "" => Eps
  | String c "" => Chr c
  | String c s' => Chr c ⋅ Lit s'
  end.

(** [r{n}] *)
Fixpoint Rep (n : nat) (r : regex) : regex :=
  match n with
  | 0 => Eps
  | 1 => r
  | S n' => r ⋅ Rep n' r
  end.

Definition code (c : ascii) : N := N_of_ascii c.

Definition between (lo hi c : ascii) : bool :=
  ((code lo <=? code c) && (code c <=? code hi))%N.

(** [\d] is [[0-9]]; [\w] is [[A-Za-z0-9_]]. *)
Definition digit (c : ascii) : bool := between "0" "9" c.
Definition word (c : ascii) : bool :=
  between "A" "Z" c || between "a" "z" c || between "0" "9" c || Ascii.eqb c "_".
Fixpoint one_of (cs : string) (c : ascii) : bool :=
  match cs with
  | "" => false
  | String c' cs' => Ascii.eqb c c' || one_of cs' c
  end.

Notation "'\d'" := (Cls digit).
Notation "'\w'" := (Cls word).

(** The [groups] object of a match: every named group of the pattern is a
    key; a group that took no part in the match holds [undefined] ([None]). *)
Fixpoint names (r : regex) : list string :=
  match r with
  | Seq r1 r2 | Alt r1 r2 => names r1 ++ names r2
  | Opt r | Group r => names r
  | Named n r => n :: names r
  | _ => []
  end.

Definition no_groups (r : regex) : gmap string (option string) :=
  list_to_map ((λ n, (n, None)) <$> names r).

(** The backtracking matcher.  [i] is the index of [s] in the whole input;
    the continuation receives the text just matched, the index and input
    after it, and the captures so far.  Alternatives are tried from left to
    right and [r?] first tries [r]. *)
Fixpoint run (r : regex) (i : nat) (s : string) (g : gmap string (option string))
    (k : string → nat → string → gmap string (option string) →
         option (gmap string (option string)))
    : option (gmap string (option string)) :=
  match r with
  | Bol => if Nat.eqb i 0 then k "" i s g else None
  | Eol => match s with "" => k "" i s g | _ => None end
  | Eps => k "" i s g
  | Chr c =>
      match s with
      | String c' s' => if Ascii.eqb c' c then k (String c' "") (S i) s' g else None
      | "" => None
      end
  | Cls p =>
      match s with
      | String c' s' => if p c' then k (String c' "") (S i) s' g else None
      | "" => None
      end
  | Seq r1 r2 =>
      run r1 i s g (λ m1 i1 s1 g1,
        run r2 i1 s1 g1 (λ m2 i2 s2 g2, k (m1 +:+ m2) i2 s2 g2))
  | Alt r1 r2 =>
      match run r1 i s g k with
      | Some g' => Some g'
      | None => run r2 i s g k
      end
  | Opt r =>
      match run r i s g k with
      | Some g' => Some g'
      | None => k "" i s g
      end
  | Named n r => run r i s g (λ m i' s' g', k m i' s' (<[n := Some m]> g'))
  | Group r => run r i s g k
  end.

(** A match may start at any index of the input (no [g] or [y] flag). *)
Fixpoint search (r : regex) (i : nat) (s : string)
    : option (gmap string (option string)) :=
  match run r i s (no_groups r) (λ _ _ _ g, Some g) with
  | Some g => Some g
  | None =>
      match s with
      | String _ s' => search r (S i) s'
      | "" => None
      end
  end.

(** [r.exec(x).groups], or [None] where [r.exec(x)] is [null]. *)
Definition exec (r : regex) (x : option string) : option (gmap string (option string)) :=
  search r 0 (ToString x).

(** [r.test(x)] *)
Definition test (r : regex) (x : option string) : bool :=
  match exec r x with
  | Some _ => true
  | None => false
  end.

(** Reading [.groups] from the result of [exec]; from [null] it throws. *)
Definition groups_of (m : option (gmap string (option string)))
    : completion (gmap string (option string)) :=
  match m with
  | Some g => Return g
  | None => Throw (TypeError "Cannot read properties of null (reading 'groups')")
  end.

End RegExp.
Import RegExp.

(** ** The parser *)

(** A value stored under a key of [result]: a token as [shift] returned it,
    or the [groups] object of a match. *)
Inductive value : Type :=
| VUndefined
| VString (s : string)
| VGroups (g : gmap string (option string)).

Definition of_token (t : option string) : value :=
  match t with
  | Some s => VString s
  | None => VUndefined
  end.

(** The two local variables every block of [parseMETAR] reads and mutates. *)
Record state : Type := { result : gmap string value; splitData : list string }.

(** The object [parseMETAR] returns. *)
Record output : Type := { METAR : string; parsedMETAR : gmap string value }.

(** Lines 71, 95, 106 and 125. *)
Definition reportTypeRegex : regex :=
  Bol ⋅ Named "reportType" (Alt (Lit "METAR") (Lit "SPECI")) ⋅ Eol.

Definition timeRegex : regex :=
  Bol ⋅ Named "dayOfMonth" (Rep 2 \d) ⋅ Named "hours" (\d ⋅ \d)
      ⋅ Named "mins" (\d ⋅ \d) ⋅ Named "timezone" (Cls (one_of "Z")) ⋅ Eol.

Definition modifierRegex : regex :=
  Bol ⋅ Named "modifier" (Alt (Lit "AUTO") (Lit "COR")) ⋅ Eol.

Definition windRegex : regex :=
  Bol ⋅ Named "direction" (Alt (Lit "VBR") (Rep 3 \d)) ⋅ Named "speed" (\d ⋅ \d)
      ⋅ Opt (Group (Chr "G" ⋅ Named "gustingSpeed" (\d ⋅ \d)))
      ⋅ Named "speedUnits" (\w ⋅ \w) ⋅ Eol.

(** Lines 71-75: the optional report type. *)
Definition parseReportType (st : state) : state :=
  let hasReportType :=
    (0 <? length (splitData st))%nat && test reportTypeRegex (splitData st !! 0) in
  if hasReportType then
    let '(t, rest) := shift (splitData st) in
    {| result := <["reportType" := of_token t]> (result st); splitData := rest |}
  else st.

(** Line 78: the station. *)
Definition parseICAO (st : state) : state :=
  let '(t, rest) := shift (splitData st) in
  {| result := <["ICAO" := of_token t]> (result st); splitData := rest |}.

(** Lines 94-98: the time of the report. *)
Definition parseTime (st : state) : completion state :=
  let '(time, rest) := shift (splitData st) in
  if test timeRegex time then
    g ← groups_of (exec timeRegex time);
    mret {| result := <["timestamp" := VGroups g]> (result st); splitData := rest |}
  else mret {| result := result st; splitData := rest |}.

(** Lines 106-110: the optional station modifier. *)
Definition parseModifier (st : state) : state :=
  let hasModifier :=
    (0 <? length (splitData st))%nat && test modifierRegex (splitData st !! 0) in
  if hasModifier then
    let '(t, rest) := shift (splitData st) in
    {| result := <["modifier" := of_token t]> (result st); splitData := rest |}
  else st.

(** Lines 124-129: the wind. *)
Definition parseWind (st : state) : completion state :=
  let '(wind, rest) := shift (splitData st) in
  n ← length_of wind;
  let hasWind := (0 <? n)%nat && test windRegex wind in
  if hasWind then
    g ← groups_of (exec windRegex wind);
    mret {| result := <["wind" := VGroups g]> (result st); splitData := rest |}
  else mret {| result := result st; splitData := rest |}.

(** Lines 63-64: the empty record and the token queue. *)
Definition start (data : string) : state :=
  {| result := ∅; splitData := split data " " |}.

(** The state in which the time block starts (lines 71-78), once the check
    of line 65 has passed. *)
Definition beforeTime (data : string) : state :=
  parseICAO (parseReportType (start data)).

(** The state in which the wind block starts (lines 63-110). *)
Definition beforeWind (data : string) : completion state :=
  if (length (splitData (start data)) =? 0)%nat then
    Throw (Error "ERROR: Invalid data length")
  else
    st ← parseTime (beforeTime data);
    mret (parseModifier st).

(** [parseMETAR], lines 56-174. *)
Definition parseMETAR (data : jsval) : completion output :=
  if negb (String.eqb (typeof data) "string") then
    Throw (Error "ERROR: Invalid data; must be a string")
  else
    match data with
    | JString data =>
        st ← beforeWind data;
        st ← parseWind st;
        mret {| METAR := data; parsedMETAR := result st |}
    | _ => Throw (Error "ERROR: Invalid data; must be a string")
    end.

(** ** The field formats in words

    The shapes of the time and wind tokens, written out character by
    character; the regular expressions are compared with them below. *)

Definition letter (c : ascii) : bool := between "A" "Z" c || between "a" "z" c.

Definition str2 (a b : ascii) : string := String a (String b "").
Definition str3 (a b c : ascii) : string := String a (String b (String c "")).

Definition time_groups (dd hh mm z : string) : gmap string (option string) :=
  list_to_map [("dayOfMonth", Some dd); ("hours", Some hh); ("mins", Some mm);
               ("timezone", Some z)].

Definition wind_groups (dir spd : string) (gust : option string) (units : string)
    : gmap string (option string) :=
  list_to_map [("direction", Some dir); ("speed", Some spd); ("gustingSpeed", gust);
               ("speedUnits", Some units)].

(** DDHHMMZ: two digits of day, of hours and of minutes, then the letter Z. *)
Definition time_form (t : string) : option (gmap string (option string)) :=
  match t with
  | String d1 (String d2 (String h1 (String h2 (String m1 (String m2 (String z "")))))) =>
      if digit d1 && digit d2 && digit h1 && digit h2 && digit m1 && digit m2
         && Ascii.eqb z "Z"
      then Some (time_groups (str2 d1 d2) (str2 h1 h2) (str2 m1 m2) (String z ""))
      else None
  | _ => None
  end.

(** A direction of three characters accepted by [dir], a speed of two digits,
    optionally G and a gust of two digits, and two characters of units
    accepted by [unit]. *)
Definition wind_form (dir : string → bool) (unit : ascii → bool) (w : string)
    : option (gmap string (option string)) :=
  match w with
  | String d1 (String d2 (String d3 (String s1 (String s2 (String u1 (String u2 "")))))) =>
      if dir (str3 d1 d2 d3) && digit s1 && digit s2 && unit u1 && unit u2
      then Some (wind_groups (str3 d1 d2 d3) (str2 s1 s2) None (str2 u1 u2))
      else None
  | String d1 (String d2 (String d3 (String s1 (String s2
      (String g (String g1 (String g2 (String u1 (String u2 ""))))))))) =>
      if dir (str3 d1 d2 d3) && digit s1 && digit s2
         && Ascii.eqb g "G" && digit g1 && digit g2 && unit u1 && unit u2
      then Some (wind_groups (str3 d1 d2 d3) (str2 s1 s2) (Some (str2 g1 g2)) (str2 u1 u2))
      else None
  | _ => None
  end.

Definition digits3 (d : string) : bool :=
  match d with
  | String a (String b (String c "")) => digit a && digit b && digit c
  | _ => false
  end.

Fixpoint starts_with (p w : string) : bool :=
  match p, w with
  | "", _ => true
  | String a p', String b w' => Ascii.eqb b a && starts_with p' w'
  | String _ _, "" => false
  end.

(** The direction as the documentation of the wind group has it: the marker
    VRB for a variable wind, or three digits. *)
Definition VRB_or_digits3 (d : string) : bool := String.eqb d "VRB" || digits3 d.

(** What line 125 accepts as a direction: the letters VBR, or three digits. *)
Definition direction_of_windRegex (d : string) : bool :=
  String.eqb d "VBR" || digits3 d.

(** The keys [parseMETAR] may set. *)
Definition KEYS : gset string :=
  {[ "reportType"; "ICAO"; "timestamp"; "modifier"; "wind" ]}.

(** ** Sample reports *)

Definition CYTZ_AUTO : output :=
  {| METAR := "CYTZ 051900Z AUTO 17011KT";
     parsedMETAR := list_to_map
       [("ICAO", VString "CYTZ");
        ("timestamp", VGroups (time_groups "05" "19" "00" "Z"));
        ("modifier", VString "AUTO");
        ("wind", VGroups (wind_groups "170" "11" None "KT"))] |}.

Definition CYTZ_BADTIME : output :=
  {| METAR := "CYTZ BADTIME AUTO 17011KT";
     parsedMETAR := list_to_map
       [("ICAO", VString "CYTZ");
        ("modifier", VString "AUTO");
        ("wind", VGroups (wind_groups "170" "11" None "KT"))] |}.

Definition METAR_CYTZ_GUST : output :=
  {| METAR := "METAR CYTZ 051900Z 17011G20KT";
     parsedMETAR := list_to_map
       [("reportType", VString "METAR");
        ("ICAO", VString "CYTZ");
        ("timestamp", VGroups (time_groups "05" "19" "00" "Z"));
        ("wind", VGroups (wind_groups "170" "11" (Some "20") "KT"))] |}.

Definition EGLL_UNITS_12 : output :=
  {| METAR := "EGLL 121350Z 1701112";
     parsedMETAR := list_to_map
       [("ICAO", VString "EGLL");
        ("timestamp", VGroups (time_groups "12" "13" "50" "Z"));
        ("wind", VGroups (wind_groups "170" "11" None "12"))] |}.

Definition TWO_SPACES : output :=
  {| METAR := "  "; parsedMETAR := {[ "ICAO" := VString "" ]} |}.

(** ** The wind group as documented *)

(** The wind claim read literally: a token in the wind position with a
    direction VRB or of three digits, a speed of two digits, an optional G and
    gust of two digits and two letters of units is decomposed into the [wind]
    record, and any other token leaves no [wind] key. *)
Definition wind_as_documented : Prop :=
  ∀ data st w rest,
    beforeWind data = Return st →
    splitData st = w :: rest →
    ∃ o, parseMETAR (JString data) = Return o
       ∧ parsedMETAR o !! "wind" = VGroups <$> wind_form VRB_or_digits3 letter w.

(** ** Words for the further properties of the parser *)

(** The number of occurrences of a character. *)
Fixpoint count_char (c : ascii) (s : string) : nat :=
  match s with
  | "" => 0
  | String c' s' => (if Ascii.eqb c' c then 1 else 0) + count_char c s'
  end.

(** [a.join(sep)] for a separator of one character. *)
Fixpoint join (a : list string) (sep : ascii) : string :=
  match a with
  | [] => ""
  | x :: a' =>
      match a' with
      | [] => x
      | _ :: _ => x +:+ String sep (join a' sep)
      end
  end.

(** The two words line 71 accepts, and the two of line 106. *)
Definition is_reportType (t : string) : bool := String.eqb t "METAR" || String.eqb t "SPECI".
Definition is_modifier (t : string) : bool := String.eqb t "AUTO" || String.eqb t "COR".

Definition two_digits (s : string) : bool :=
  match s with
  | String a (String b "") => digit a && digit b
  | _ => false
  end.

(** The text of a capture group that took part in the match. *)
Definition group (g : gmap string (option string)) (name : string) : option string :=
  g !! name ≫= id.

(** A time token put together again from its groups. *)
Definition time_text (g : gmap string (option string)) : option string :=
  dd ← group g "dayOfMonth"; hh ← group g "hours"; mm ← group g "mins";
  z ← group g "timezone";
  Some (dd +:+ hh +:+ mm +:+ z).

(** A wind token put together again from its groups. *)
Definition wind_text (g : gmap string (option string)) : option string :=
  d ← group g "direction"; s ← group g "speed"; u ← group g "speedUnits";
  gust ← g !! "gustingSpeed";
  Some (d +:+ s +:+ match gust with Some x => "G" +:+ x | None => "" end +:+ u).

(** Lines 71-129 from a given state: the five blocks one after the other. *)
Definition blocks (st : state) : completion state :=
  st ← parseTime (parseICAO (parseReportType st));
  parseWind (parseModifier st).

(** The queue after the optional report type, and after the optional
    modifier. *)
Definition skip_reportType (q : list string) : list string :=
  match q with
  | t :: q' => if is_reportType t then q' else q
  | [] => []
  end.

Definition skip_modifier (q : list string) : list string :=
  match q with
  | t :: q' => if is_modifier t then q' else q
  | [] => []
  end.

(** What each block adds to the record. *)
Definition with_reportType (q : list string) (r : gmap string value) : gmap string value :=
  match q with
  | t :: _ => if is_reportType t then <["reportType" := VString t]> r else r
  | [] => r
  end.

Definition with_timestamp (t : string) (r : gmap string value) : gmap string value :=
  match time_form t with
  | Some g => <["timestamp" := VGroups g]> r
  | None => r
  end.

Definition with_modifier (q : list string) (r : gmap string value) : gmap string value :=
  match q with
  | t :: _ => if is_modifier t then <["modifier" := VString t]> r else r
  | [] => r
  end.

Definition with_wind (w : string) (r : gmap string value) : gmap string value :=
  match wind_form direction_of_windRegex word w with
  | Some g => <["wind" := VGroups g]> r
  | None => r
  end.

(** Two word characters. *)
Definition two_words (s : string) : bool :=
  match s with
  | String a (String b "") => word a && word b
  | _ => false
  end.

(** A report with a space in front: the time token is read as the wind. *)
Definition LEADING_SPACE : output :=
  {| METAR := " CYTZ 051900Z 17011KT";
     parsedMETAR := list_to_map
       [("ICAO", VString "");
        ("wind", VGroups (wind_groups "051" "90" None "0Z"))] |}.

(** ** The answer of the weather service *)

Module API.

(** A value as [response.json()] delivers it.  A number is the bit pattern of
    its binary64; an object holds each of its keys once, in the order of the
    text. *)
#[warnings="-register-all"]
Inductive json : Type :=
| JsNull
| JsBool (b : bool)
| JsNum (bits : Z)
| JsStr (s : string)
| JsArr (items : list json)
| JsObj (props : list (string * json)).

(** Why a promise is rejected: with what a function of [app.js] threw, or
    with an error of the platform ([fetch] failing, a body that is no JSON). *)
Inductive rejection : Type :=
| Exception (e : exn)
| PlatformError (name message : string).

(** A promise, once settled. *)
Inductive promise (A : Type) : Type :=
| Fulfilled (a : A)
| Rejected (r : rejection).
Arguments Fulfilled {A} a.
Arguments Rejected {A} r.

(** [p.then(f)] for a handler that returns a value or throws. *)
Definition then_ {A B} (p : promise A) (f : A → completion B) : promise B :=
  match p with
  | Fulfilled a =>
      match f a with
      | Return b => Fulfilled b
      | Throw e => Rejected (Exception e)
      end
  | Rejected r => Rejected r
  end.

(** [p.then(f)] for a handler that returns a promise or throws. *)
Definition then_promise {A B} (p : promise A) (f : A → completion (promise B))
    : promise B :=
  match p with
  | Fulfilled a =>
      match f a with
      | Return q => q
      | Throw e => Rejected (Exception e)
      end
  | Rejected r => Rejected r
  end.

(** What [parseAPIResponse] reads of a [Response]: [ok], and the promise
    [json()] returns. *)
Record Response : Type := { ok : bool; json_body : promise json }.

(** The number 1, and the number of a length (exact below 2^53, which covers
    every array and string). *)
Definition one : Z := 0x3FF0000000000000.

Definition number_of_nat (n : nat) : Z :=
  let z := Z.of_nat n in
  if (z =? 0)%Z then 0%Z
  else let e := Z.log2 z in ((1023 + e) * 2 ^ 52 + (z - 2 ^ e) * 2 ^ (52 - e))%Z.

Definition is_NaN (bits : Z) : bool :=
  (Z.land (Z.shiftr bits 52) 0x7FF =? 0x7FF)%Z && negb (Z.land bits (2 ^ 52 - 1) =? 0)%Z.

Definition is_zero (bits : Z) : bool := (Z.land bits (2 ^ 63 - 1) =? 0)%Z.

(** [!!v], for a JSON value or [undefined] ([None]). *)
Definition ToBoolean (v : option json) : bool :=
  match v with
  | None | Some JsNull => false
  | Some (JsBool b) => b
  | Some (JsNum x) => negb (is_zero x || is_NaN x)
  | Some (JsStr s) => negb (String.eqb s "")
  | Some (JsArr _) | Some (JsObj _) => true
  end.

(** [v === x] for a number [x]. *)
Definition strict_equal_number (v : option json) (x : Z) : bool :=
  match v with
  | Some (JsNum y) =>
      negb (is_NaN y) && negb (is_NaN x) && ((is_zero y && is_zero x) || (y =? x)%Z)
  | _ => false
  end.

(** The four properties [parseAPIResponse] reads. *)
Inductive key : Type := K_results | K_data | K_length | K_0.

Definition key_name (k : key) : string :=
  match k with
  | K_results => "results"
  | K_data => "data"
  | K_length => "length"
  | K_0 => "0"
  end.

Fixpoint lookup_prop (props : list (string * json)) (name : string) : option json :=
  match props with
  | [] => None
  | (n, v) :: props' => if String.eqb n name then Some v else lookup_prop props' name
  end.

(** [v.k] and [v[0]]: own properties of an object, [length] and the first
    element of an array or string, [undefined] otherwise; reading from [null]
    or [undefined] throws. *)
Definition get (v : option json) (k : key) : completion (option json) :=
  match v with
  | None =>
      Throw (TypeError ("Cannot read properties of undefined (reading '"
                        +:+ key_name k +:+ "')"))
  | Some JsNull =>
      Throw (TypeError ("Cannot read properties of null (reading '"
                        +:+ key_name k +:+ "')"))
  | Some (JsObj props) => Return (lookup_prop props (key_name k))
  | Some (JsArr items) =>
      Return match k with
             | K_length => Some (JsNum (number_of_nat (length items)))
             | K_0 => head items
             | _ => None
             end
  | Some (JsStr s) =>
      Return match k with
             | K_length => Some (JsNum (number_of_nat (String.length s)))
             | K_0 => match s with String c _ => Some (JsStr (String c "")) | "" => None end
             | _ => None
             end
  | Some (JsBool _) | Some (JsNum _) => Return None
  end.

(** A value in a template literal; [ToString] of a JSON value is left to the
    caller. *)
Definition template (ToString_json : json → string) (v : option json) : string :=
  match v with
  | Some j => ToString_json j
  | None => "undefined"
  end.

(** Lines 20-39: the handler of [response.json()]. *)
Definition checkJSON (ToString_json JSON_stringify : json → string)
    (responseJSON : json) : completion (option json) :=
  r ← get (Some responseJSON) K_results;
  if negb (ToBoolean r) || negb (strict_equal_number r one) then
    Throw (Error ("ERROR: Invalid result: " +:+ template ToString_json r))
  else
    d ← get (Some responseJSON) K_data;
    invalid ← (if negb (ToBoolean d) then mret true
               else len ← get d K_length; mret (negb (strict_equal_number len one)));
    if invalid : bool then
      Throw (Error ("ERROR: Invalid data: " +:+ template JSON_stringify d))
    else get d K_0.

(** [parseAPIResponse], lines 14-40: it throws, or returns a promise. *)
Definition parseAPIResponse (ToString_json JSON_stringify : json → string)
    (response : Response) : completion (promise (option json)) :=
  if negb (ok response) then Throw (Error "ERROR: Network response was not ok")
  else Return (then_ (json_body response) (checkJSON ToString_json JSON_stringify)).

(** The item of the answer as the argument of [parseMETAR]. *)
Fixpoint of_json (j : json) : jsval :=
  match j with
  | JsNull => JNull
  | JsBool b => JBoolean b
  | JsNum bits => JNumber bits
  | JsStr s => JString s
  | JsArr items =>
      JObject ((fix go (i : nat) (items : list json) : list (string * jsval) :=
                  match items with
                  | [] => []
                  | x :: items' => (pretty i, of_json x) :: go (S i) items'
                  end) 0 items)
  | JsObj props =>
      JObject ((fix go (props : list (string * json)) : list (string * jsval) :=
                  match props with
                  | [] => []
                  | (n, x) :: props' => (n, of_json x) :: go props'
                  end) props)
  end.

Definition of_value (v : option json) : jsval :=
  match v with
  | Some j => of_json j
  | None => JUndefined
  end.

(** Lines 6-7. *)
Definition API_KEY : string := "19b4970bb56b0460a4130b5b67".
Definition API_URL : string := "https://api.checkwx.com/metar/".

(** What [getWeather] hands to [fetch]. *)
Record request : Type :=
  { url : string; method : string; headers : list (string * string) }.

(** [getWeather], lines 42-54; [fetch] is the network. *)
Definition getWeather (fetch : request → promise Response)
    (ToString_json JSON_stringify : json → string) (airportCode : string)
    : promise (option json) :=
  let url := API_URL +:+ airportCode in
  let headers := [("Accept", "application/json"); ("X-API-Key", API_KEY)] in
  let options := {| url := url; method := "GET"; headers := headers |} in
  then_promise (fetch options) (parseAPIResponse ToString_json JSON_stringify).

(** Lines 198-199: the chain of [getResults] up to [then(parseMETAR)], before
    the page is touched. *)
Definition parsedWeather (fetch : request → promise Response)
    (ToString_json JSON_stringify : json → string) : promise output :=
  then_ (getWeather fetch ToString_json JSON_stringify "CYTZ")
        (λ x, parseMETAR (of_value x)).

(** What passes the check of line 35: an array of one item, and with it a
    string of one character and an object whose [length] is 1. *)
Definition single_item (d : json) (v : option json) : Prop :=
  (∃ x, d = JsArr [x] ∧ v = Some x)
  ∨ (∃ c, d = JsStr (String c "") ∧ v = Some d)
  ∨ (∃ p, d = JsObj p ∧ lookup_prop p "length" = Some (JsNum one)
        ∧ v = lookup_prop p "0").

End API.
Import API.

(** An answer of the service: ok, with the given [data]. *)
Definition answer (d : json) : Response :=
  {| ok := true;
     json_body := Fulfilled (JsObj [("results", JsNum one); ("data", d)]) |}.

(** ** The page *)

Module DOM.

(** A node of the page: a text, or an element with its tag and children. *)
#[warnings="-register-all"]
Inductive node : Type :=
| Text (data : string)
| Child (tagName : string) (childNodes : list node).

(** An element, as [document.getElementById] returns it; [None] is [null]. *)
Record element : Type := { tagName : string; childNodes : list node }.

(** The left operand of [instanceof] at line 177. *)
Inductive operand : Type :=
| OBoolean (b : bool)
| OElement (e : option element).

(** [v instanceof HTMLParagraphElement]: false for everything that is not an
    object, true for an element whose tag is P. *)
Definition instanceof_HTMLParagraphElement (v : operand) : bool :=
  match v with
  | OElement (Some e) => String.eqb (tagName e) "P"
  | _ => false
  end.

(** [!node]: an object is truthy, [null] is not. *)
Definition logical_not (node : option element) : bool :=
  match node with
  | Some _ => false
  | None => true
  end.

Definition hasChildNodes (e : element) : bool :=
  match childNodes e with
  | [] => false
  | _ :: _ => true
  end.

(** [node.removeChild(node.childNodes[0])] *)
Definition removeFirstChild (e : element) : element :=
  {| tagName := tagName e; childNodes := tail (childNodes e) |}.

Definition appendChild (e : element) (n : node) : element :=
  {| tagName := tagName e; childNodes := childNodes e ++ [n] |}.

(** Lines 182-184: the loop, which takes one turn for every child. *)
Fixpoint removeChildren (turns : nat) (e : element) : element :=
  match turns with
  | 0 => e
  | S turns' =>
      if hasChildNodes e then removeChildren turns' (removeFirstChild e) else e
  end.

(** [setNodeText], lines 176-187: the element after the call.  [!] binds
    tighter than [instanceof], so line 177 tests the boolean [!node]. *)
Definition setNodeText (node : option element) (text : string) : completion element :=
  if instanceof_HTMLParagraphElement (OBoolean (logical_not node)) then
    Throw (Error "Invalid node; should be an instance of HTMLParagraphElement")
  else
    match node with
    | None =>
        Throw (TypeError "Cannot read properties of null (reading 'hasChildNodes')")
    | Some e =>
        let e := if hasChildNodes e
                 then removeChildren (length (childNodes e)) e
                 else e in
        Return (appendChild e (Text text))
    end.

End DOM.
Import DOM.

(** ** The state a call could leave behind

    The strings, the array [splitData] and the object [result] of a call are
    its own.  What has state of its own beyond them are the RegExp objects:
    with the flag [g] or [y], [test] and [exec] start at [lastIndex] and move
    it.  Here [parseMETAR] runs on a store of RegExp objects, each literal
    making a new object where it is evaluated, and [test] and [exec] go
    through [RegExpBuiltinExec]. *)

Module Store.

Record RegExpObject : Type :=
  { source : regex; global : bool; sticky : bool; lastIndex : nat }.

(** The RegExp objects made so far; a reference is an index. *)
Record store : Type := { objects : list RegExpObject }.

(** A computation on the store: it returns or throws, and leaves a store. *)
Definition M (A : Type) : Type := store → completion A * store.

Definition ret {A} (a : A) : M A := λ σ, (Return a, σ).
Definition throw {A} (e : exn) : M A := λ σ, (Throw e, σ).
Definition bind {A B} (c : M A) (k : A → M B) : M B :=
  λ σ, match c σ with
       | (Return a, σ') => k a σ'
       | (Throw e, σ') => (Throw e, σ')
       end.

(** The matcher of [run], for any result of the continuation: the match as a
    whole gives its captures, its text and the index where it ends. *)
Fixpoint matcher {A} (r : regex) (i : nat) (s : string) (g : gmap string (option string))
    (k : string → nat → string → gmap string (option string) → option A)
    : option A :=
  match r with
  | Bol => if Nat.eqb i 0 then k "" i s g else None
  | Eol => match s with "" => k "" i s g | _ => None end
  | Eps => k "" i s g
  | Chr c =>
      match s with
      | String c' s' => if Ascii.eqb c' c then k (String c' "") (S i) s' g else None
      | "" => None
      end
  | Cls p =>
      match s with
      | String c' s' => if p c' then k (String c' "") (S i) s' g else None
      | "" => None
      end
  | Seq r1 r2 =>
      matcher r1 i s g (λ m1 i1 s1 g1,
        matcher r2 i1 s1 g1 (λ m2 i2 s2 g2, k (m1 +:+ m2) i2 s2 g2))
  | Alt r1 r2 =>
      match matcher r1 i s g k with
      | Some a => Some a
      | None => matcher r2 i s g k
      end
  | Opt r =>
      match matcher r i s g k with
      | Some a => Some a
      | None => k "" i s g
      end
  | Named n r => matcher r i s g (λ m i' s' g', k m i' s' (<[n := Some m]> g'))
  | Group r => matcher r i s g k
  end.

(** The search of [RegExpBuiltinExec] from index [i]: a sticky pattern must
    match there, any other may match further on. *)
Fixpoint scan (r : regex) (sticky : bool) (i : nat) (s : string)
    : option (gmap string (option string) * nat) :=
  match matcher r i s (no_groups r) (λ _ e _ g, Some (g, e)) with
  | Some x => Some x
  | None =>
      if sticky then None
      else match s with
           | String _ s' => scan r sticky (S i) s'
           | "" => None
           end
  end.

Fixpoint skip (n : nat) (s : string) : string :=
  match n, s with
  | S n', String _ s' => skip n' s'
  | _, _ => s
  end.

(** [RegExpBuiltinExec(R, S)]: the [groups] of the match or [null], and the
    object afterwards.  Without [g] and [y] the search starts at 0 and
    [lastIndex] is neither read nor written; with one of them it starts at
    [lastIndex], which becomes the end of the match, or 0 when there is
    none. *)
Definition RegExpBuiltinExec (R : RegExpObject) (S : string)
    : option (gmap string (option string)) * RegExpObject :=
  let moves := global R || sticky R in
  let start := if moves then lastIndex R else 0 in
  let set_lastIndex (n : nat) :=
    if moves
    then {| source := source R; global := global R; sticky := sticky R; lastIndex := n |}
    else R in
  if (String.length S <? start)%nat then (None, set_lastIndex 0)
  else match scan (source R) (sticky R) start (skip start S) with
       | Some (g, e) => (Some g, set_lastIndex e)
       | None => (None, set_lastIndex 0)
       end.

(** A regular expression literal with the given flags: a new object every
    time it is evaluated. *)
Definition new_RegExp (r : regex) (g y : bool) : M nat :=
  λ σ, (Return (length (objects σ)),
        {| objects := objects σ
                      ++ [{| source := r; global := g; sticky := y; lastIndex := 0 |}] |}).

(** [R.exec(x)], its [groups] or [null], and [R.test(x)]. *)
Definition exec_at (R : nat) (x : option string) : M (option (gmap string (option string))) :=
  λ σ, match objects σ !! R with
       | Some o =>
           let '(m, o') := RegExpBuiltinExec o (ToString x) in
           (Return m, {| objects := <[R := o']> (objects σ) |})
       | None => (Throw (TypeError "not a RegExp"), σ)
       end.

Definition test_at (R : nat) (x : option string) : M bool :=
  bind (exec_at R x) (λ m, ret (match m with Some _ => true | None => false end)).

Definition lift {A} (c : completion A) : M A := λ σ, (c, σ).

(** Lines 71-75. *)
Definition parseReportType (st : state) : M state :=
  bind (new_RegExp reportTypeRegex false false) (λ reportTypeRegex,
  bind (if (0 <? length (splitData st))%nat
        then test_at reportTypeRegex (splitData st !! 0)
        else ret false) (λ hasReportType,
  if hasReportType : bool then
    let '(t, rest) := shift (splitData st) in
    ret {| result := <["reportType" := of_token t]> (result st); splitData := rest |}
  else ret st)).

(** Lines 94-98. *)
Definition parseTime (st : state) : M state :=
  let '(time, rest) := shift (splitData st) in
  bind (new_RegExp timeRegex false false) (λ timeRegex,
  bind (test_at timeRegex time) (λ matches,
  if matches : bool then
    bind (exec_at timeRegex time) (λ m,
    bind (lift (groups_of m)) (λ g,
    ret {| result := <["timestamp" := VGroups g]> (result st); splitData := rest |}))
  else ret {| result := result st; splitData := rest |})).

(** Lines 106-110. *)
Definition parseModifier (st : state) : M state :=
  bind (new_RegExp modifierRegex false false) (λ modifierRegex,
  bind (if (0 <? length (splitData st))%nat
        then test_at modifierRegex (splitData st !! 0)
        else ret false) (λ hasModifier,
  if hasModifier : bool then
    let '(t, rest) := shift (splitData st) in
    ret {| result := <["modifier" := of_token t]> (result st); splitData := rest |}
  else ret st)).

(** Lines 124-129. *)
Definition parseWind (st : state) : M state :=
  let '(wind, rest) := shift (splitData st) in
  bind (new_RegExp windRegex false false) (λ windRegex,
  bind (lift (length_of wind)) (λ n,
  bind (if (0 <? n)%nat then test_at windRegex wind else ret false) (λ hasWind,
  if hasWind : bool then
    bind (exec_at windRegex wind) (λ m,
    bind (lift (groups_of m)) (λ g,
    ret {| result := <["wind" := VGroups g]> (result st); splitData := rest |}))
  else ret {| result := result st; splitData := rest |}))).

(** [parseMETAR], lines 56-174, on the store. *)
Definition parseMETAR (data : jsval) : M output :=
  if negb (String.eqb (typeof data) "string") then
    throw (Error "ERROR: Invalid data; must be a string")
  else
    match data with
    | JString data =>
        let st := start data in
        if (length (splitData st) =? 0)%nat then
          throw (Error "ERROR: Invalid data length")
        else
          bind (parseReportType st) (λ st,
          bind (parseTime (parseICAO st)) (λ st,
          bind (parseModifier st) (λ st,
          bind (parseWind st) (λ st,
          ret {| METAR := data; parsedMETAR := result st |}))))
    | _ => throw (Error "ERROR: Invalid data; must be a string")
    end.

(** The object a literal without flags makes. *)
Definition literal (r : regex) : RegExpObject :=
  {| source := r; global := false; sticky := false; lastIndex := 0 |}.

(** The store after a literal without flags has been evaluated. *)
Definition with_literal (σ : store) (r : regex) : store :=
  {| objects := objects σ ++ [literal r] |}.

(** A store that already holds an object with the flag [g], part way
    through a string. *)
Definition used_store : store :=
  {| objects := [{| source := timeRegex; global := true; sticky := false;
                    lastIndex := 3 |}] |}.

End Store.

(** ** Properties of the JavaScript fragment *)

(** [split] never returns the empty array. *)
Lemma split_nonempty s sep : split s sep ≠ [].
Proof.
  destruct s as [|c s]; simpl; [done|].
  destruct (Ascii.eqb c sep); [done|]. by destruct (split s sep).
Qed.

(** Past index 0 a pattern that starts with [^] finds nothing. *)
Lemma search_Bol r i s : search (Bol ⋅ r) (S i) s = None.
Proof.
  revert i. induction s as [|c s IH]; intros i; simpl; [done|]. apply IH.
Qed.

(** A pattern that starts with [^] matches at index 0 or not at all. *)
Lemma exec_Bol r x :
  exec (Bol ⋅ r) x
  = run (Bol ⋅ r) 0 (ToString x) (no_groups (Bol ⋅ r)) (λ _ _ _ g, Some g).
Proof.
  unfold exec. destruct (ToString x) as [|c s]; simpl.
  - by destruct (run r _ _ _ _).
  - destruct (run r _ _ _ _); [done|]. apply search_Bol.
Qed.

Lemma test_exec r x : test r x = true ↔ is_Some (exec r x).
Proof.
  unfold test. destruct (exec r x); split; intros H; try done.
Qed.

(** One step of running a pattern on an input of unknown characters: look at
    the next character, or decide one character test. *)
Ltac step_match :=
  match goal with
  | |- context [match ?s with EmptyString => _ | String _ _ => _ end] =>
      is_var s; destruct s; simpl
  | |- context [Ascii.eqb ?c ?d] =>
      is_var c; let E := fresh "E" in
      destruct (Ascii.eqb c d) eqn:E;
      [apply Ascii.eqb_eq in E; subst; simpl | simpl]
  | |- context [if ?p ?c then _ else _] =>
      is_var c; let E := fresh "E" in destruct (p c) eqn:E; simpl
  end.

(** The four patterns, character by character. *)
Lemma timeRegex_exec t : exec timeRegex (Some t) = time_form t.
Proof.
  unfold timeRegex. rewrite exec_Bol. simpl.
  repeat step_match; try done.
Qed.

Lemma windRegex_exec w :
  exec windRegex (Some w) = wind_form direction_of_windRegex word w.
Proof.
  unfold windRegex. rewrite exec_Bol.
  unfold wind_form, direction_of_windRegex, digits3. simpl.
  repeat step_match; try done.
Qed.

Lemma reportTypeRegex_test t :
  test reportTypeRegex (Some t) = String.eqb t "METAR" || String.eqb t "SPECI".
Proof.
  unfold test, reportTypeRegex. rewrite exec_Bol. simpl.
  repeat step_match; try done.
Qed.

Lemma modifierRegex_test t :
  test modifierRegex (Some t) = String.eqb t "AUTO" || String.eqb t "COR".
Proof.
  unfold test, modifierRegex. rewrite exec_Bol. simpl.
  repeat step_match; try done.
Qed.

Lemma typeof_string data : typeof data = "string" ↔ ∃ s, data = JString s.
Proof.
  split; [|by intros [s ->]]. destruct data; try discriminate. by eexists.
Qed.

(** ** The blocks of the parser *)

Lemma parseMETAR_string data :
  parseMETAR (JString data)
  = (st ← beforeWind data; st ← parseWind st;
     mret {| METAR := data; parsedMETAR := result st |}).
Proof. reflexivity. Qed.

(** The time block never throws: the token is removed, and [timestamp] is set
    exactly when the pattern matches. *)
Lemma parseTime_eq st :
  parseTime st
  = Return {| result := match exec timeRegex (shift (splitData st)).1 with
                        | Some g => <["timestamp" := VGroups g]> (result st)
                        | None => result st
                        end;
              splitData := (shift (splitData st)).2 |}.
Proof.
  unfold parseTime, test. destruct (shift (splitData st)) as [time rest]; simpl.
  by destruct (exec timeRegex time).
Qed.

(** The wind block on a queue that still holds a token. *)
Lemma parseWind_cons st w rest :
  splitData st = w :: rest →
  parseWind st
  = Return {| result := match exec windRegex (Some w) with
                        | Some g => <["wind" := VGroups g]> (result st)
                        | None => result st
                        end;
              splitData := rest |}.
Proof.
  intros Hq. unfold parseWind, test. rewrite Hq.
  destruct w as [|c w].
  - by rewrite windRegex_exec.
  - simpl. by destruct (exec windRegex _).
Qed.

(** The wind block on an exhausted queue: [wind] is [undefined] and
    [wind.length] throws. *)
Lemma parseWind_nil st :
  splitData st = [] →
  parseWind st
  = Throw (TypeError "Cannot read properties of undefined (reading 'length')").
Proof. intros Hq. unfold parseWind. by rewrite Hq. Qed.

Lemma beforeWind_eq data :
  beforeWind data
  = st ← parseTime (beforeTime data); mret (parseModifier st).
Proof.
  unfold beforeWind. simpl. pose proof (split_nonempty data " ") as Hne.
  by destruct (split data " ").
Qed.

Lemma parseReportType_dom st :
  dom (result (parseReportType st)) ⊆ {[ "reportType" ]} ∪ dom (result st).
Proof.
  unfold parseReportType. destruct (_ && _); [|set_solver].
  destruct (shift (splitData st)); simpl. rewrite dom_insert_L. set_solver.
Qed.

Lemma parseModifier_dom st :
  dom (result (parseModifier st)) ⊆ {[ "modifier" ]} ∪ dom (result st).
Proof.
  unfold parseModifier. destruct (_ && _); [|set_solver].
  destruct (shift (splitData st)); simpl. rewrite dom_insert_L. set_solver.
Qed.

Lemma parseModifier_ICAO st :
  result (parseModifier st) !! "ICAO" = result st !! "ICAO".
Proof.
  unfold parseModifier. destruct (_ && _); [|done].
  destruct (shift (splitData st)); simpl. by rewrite lookup_insert_ne.
Qed.

Lemma parseICAO_result st :
  result (parseICAO st) = <["ICAO" := of_token (shift (splitData st)).1]> (result st).
Proof. unfold parseICAO. by destruct (shift (splitData st)). Qed.

(** The state before the wind block, and what it holds. *)
Lemma beforeWind_inv data :
  ∃ st, beforeWind data = Return st
    ∧ dom (result st) ⊆ {[ "reportType"; "ICAO"; "timestamp"; "modifier" ]}
    ∧ result st !! "ICAO"
      = Some (of_token (shift (splitData (parseReportType (start data)))).1).
Proof.
  rewrite beforeWind_eq, parseTime_eq. eexists; split; [reflexivity|].
  unfold beforeTime. set (st0 := parseReportType (start data)).
  pose proof (parseReportType_dom (start data)) as H0. fold st0 in H0.
  change (dom (result (start data))) with (dom (∅ : gmap string value)) in H0.
  rewrite dom_empty_L in H0.
  split.
  - etrans; [apply parseModifier_dom|]. simpl. rewrite parseICAO_result.
    destruct (exec timeRegex _); rewrite ?dom_insert_L; set_solver.
  - rewrite parseModifier_ICAO. simpl. rewrite parseICAO_result.
    destruct (exec timeRegex _); by simplify_map_eq.
Qed.

Lemma beforeTime_dom data : dom (result (beforeTime data)) ⊆ {[ "reportType"; "ICAO" ]}.
Proof.
  unfold beforeTime. rewrite parseICAO_result, dom_insert_L.
  pose proof (parseReportType_dom (start data)) as H0.
  change (dom (result (start data))) with (dom (∅ : gmap string value)) in H0.
  rewrite dom_empty_L in H0. set_solver.
Qed.

(** [parseMETAR] returns exactly when a token is left for the wind block. *)
Lemma parseMETAR_returns data st :
  beforeWind data = Return st →
  (∃ o, parseMETAR (JString data) = Return o) ↔ splitData st ≠ [].
Proof.
  intros Hst. rewrite parseMETAR_string, Hst. simpl.
  destruct (splitData st) as [|w rest] eqn:Hq.
  - rewrite (parseWind_nil _ Hq). split; [by intros [o ?]|done].
  - rewrite (parseWind_cons _ _ _ Hq). split; [done|]. by eexists.
Qed.

Lemma parseMETAR_METAR data o : parseMETAR data = Return o → data = JString (METAR o).
Proof.
  destruct data as [| | | | |s| | |]; try discriminate.
  rewrite parseMETAR_string. destruct (beforeWind s) as [st|]; [|discriminate].
  simpl. destruct (parseWind st); [|discriminate]. simpl. by intros [= <-].
Qed.

(** ** What the parser guarantees *)

(** C7. Every input that is not a string makes [parseMETAR] throw the error
    of line 60, whatever the input holds. *)
Theorem parseMETAR_rejects_non_string (data : jsval) :
  typeof data ≠ "string" →
  parseMETAR data = Throw (Error "ERROR: Invalid data; must be a string").
Proof.
  intros Hty. destruct data; try reflexivity. by destruct Hty.
Qed.

Lemma parseMETAR_rejects_non_string_witness :
  typeof (JNumber 42) ≠ "string"
  ∧ parseMETAR (JNumber 42) = Throw (Error "ERROR: Invalid data; must be a string").
Proof.
  split; [discriminate|].
  apply (parseMETAR_rejects_non_string (JNumber 42)). discriminate.
Defined.

(** C8. Whenever [parseMETAR] returns, the [METAR] field of what it returns is
    the input, unchanged. *)
Theorem parseMETAR_keeps_raw_string (data : string) (o : output) :
  parseMETAR (JString data) = Return o → METAR o = data.
Proof.
  intros Ho. apply parseMETAR_METAR in Ho. by injection Ho.
Qed.

Lemma parseMETAR_keeps_raw_string_witness :
  parseMETAR (JString "CYTZ 051900Z AUTO 17011KT") = Return CYTZ_AUTO
  ∧ METAR CYTZ_AUTO = "CYTZ 051900Z AUTO 17011KT".
Proof.
  split; [vm_compute; reflexivity|].
  apply (parseMETAR_keeps_raw_string "CYTZ 051900Z AUTO 17011KT" CYTZ_AUTO).
  vm_compute; reflexivity.
Defined.

(** *** No hidden state *)

(** The matcher of the store agrees with [run]. *)
Lemma matcher_run {A} (f : A → gmap string (option string)) r :
  ∀ i s g (K : string → nat → string → gmap string (option string) → option A) k,
    (∀ m i s g, f <$> K m i s g = k m i s g) →
    f <$> Store.matcher r i s g K = run r i s g k.
Proof.
  induction r as [| | |c|p|r1 IH1 r2 IH2|r1 IH1 r2 IH2|r IH|n r IH|r IH];
    intros i s g K k HK; simpl; try done.
  - by destruct (Nat.eqb i 0).
  - by destruct s.
  - destruct s as [|c' s]; [done|]. by destruct (Ascii.eqb c' c).
  - destruct s as [|c' s]; [done|]. by destruct (p c').
  - apply IH1. intros m1 i1 s1 g1. by apply IH2.
  - rewrite <- (IH1 i s g K k HK), <- (IH2 i s g K k HK).
    by destruct (Store.matcher r1 i s g K).
  - rewrite <- (IH i s g K k HK), <- (HK "" i s g).
    by destruct (Store.matcher r i s g K).
  - apply IH. intros m i' s' g'. apply HK.
  - by apply IH.
Qed.

Lemma scan_search r i s : fst <$> Store.scan r false i s = search r i s.
Proof.
  revert i. induction s as [|c s IH]; intros i; simpl.
  - rewrite <- (matcher_run fst r i "" (no_groups r) (λ _ e _ g, Some (g, e))
                  (λ _ _ _ g, Some g)) by done.
    by destruct (Store.matcher _ _ _ _ _).
  - rewrite <- (matcher_run fst r i (String c s) (no_groups r) (λ _ e _ g, Some (g, e))
                  (λ _ _ _ g, Some g)) by done.
    destruct (Store.matcher _ _ _ _ _); [done|]. apply IH.
Qed.

(** On an object without flags [RegExpBuiltinExec] is the search from index
    0, and the object stays as it is. *)
Lemma RegExpBuiltinExec_literal r S :
  Store.RegExpBuiltinExec (Store.literal r) S = (search r 0 S, Store.literal r).
Proof.
  unfold Store.RegExpBuiltinExec. simpl. rewrite <- scan_search.
  by destruct (Store.scan r false 0 S) as [[g e]|].
Qed.

Lemma exec_at_literal σ R r x :
  Store.objects σ !! R = Some (Store.literal r) →
  Store.exec_at R x σ = (Return (exec r x), σ).
Proof.
  intros HR. unfold Store.exec_at. rewrite HR, RegExpBuiltinExec_literal.
  rewrite list_insert_id by done. by destruct σ.
Qed.

Lemma test_at_literal σ R r x :
  Store.objects σ !! R = Some (Store.literal r) →
  Store.test_at R x σ = (Return (test r x), σ).
Proof.
  intros HR. unfold Store.test_at, Store.bind. by rewrite (exec_at_literal _ _ _ _ HR).
Qed.

Lemma lookup_new (objs : list Store.RegExpObject) o :
  ((objs ++ [o])%list : list Store.RegExpObject) !! length objs = Some o.
Proof. rewrite lookup_app_r by done. by rewrite Nat.sub_diag. Qed.

Lemma new_RegExp_literal σ r :
  Store.new_RegExp r false false σ
  = (Return (length (Store.objects σ)), Store.with_literal σ r).
Proof. reflexivity. Qed.

Lemma with_literal_lookup σ r :
  Store.objects (Store.with_literal σ r) !! length (Store.objects σ)
  = Some (Store.literal r).
Proof. apply lookup_new. Qed.

(** Each block on the store: what the block does, and one new object that
    is left as the literal made it. *)
Lemma Store_parseReportType st σ :
  Store.parseReportType st σ
  = (Return (parseReportType st), Store.with_literal σ reportTypeRegex).
Proof.
  unfold Store.parseReportType, Store.bind at 1. rewrite new_RegExp_literal.
  unfold parseReportType, Store.bind.
  destruct (0 <? length (splitData st))%nat; simpl.
  - rewrite (test_at_literal _ _ reportTypeRegex) by apply with_literal_lookup.
    destruct (test reportTypeRegex _); [|done]. by destruct (shift (splitData st)).
  - done.
Qed.

Lemma Store_parseModifier st σ :
  Store.parseModifier st σ
  = (Return (parseModifier st), Store.with_literal σ modifierRegex).
Proof.
  unfold Store.parseModifier, Store.bind at 1. rewrite new_RegExp_literal.
  unfold parseModifier, Store.bind.
  destruct (0 <? length (splitData st))%nat; simpl.
  - rewrite (test_at_literal _ _ modifierRegex) by apply with_literal_lookup.
    destruct (test modifierRegex _); [|done]. by destruct (shift (splitData st)).
  - done.
Qed.

Lemma Store_parseTime st σ :
  Store.parseTime st σ = (parseTime st, Store.with_literal σ timeRegex).
Proof.
  unfold Store.parseTime, parseTime. destruct (shift (splitData st)) as [time rest].
  unfold Store.bind at 1. rewrite new_RegExp_literal. unfold Store.bind at 1.
  rewrite (test_at_literal _ _ timeRegex) by apply with_literal_lookup.
  destruct (test timeRegex time); [|done]. unfold Store.bind at 1.
  rewrite (exec_at_literal _ _ timeRegex) by apply with_literal_lookup.
  unfold Store.bind, Store.lift. by destruct (exec timeRegex time).
Qed.

Lemma Store_parseWind st σ :
  Store.parseWind st σ = (parseWind st, Store.with_literal σ windRegex).
Proof.
  unfold Store.parseWind, parseWind. destruct (shift (splitData st)) as [wind rest].
  unfold Store.bind at 1. rewrite new_RegExp_literal.
  unfold Store.bind at 1, Store.lift at 1.
  destruct (length_of wind) as [n|e]; [|done]. simpl.
  destruct (0 <? n)%nat; simpl.
  - unfold Store.bind at 1.
    rewrite (test_at_literal _ _ windRegex) by apply with_literal_lookup.
    destruct (test windRegex wind); [|done]. unfold Store.bind at 1.
    rewrite (exec_at_literal _ _ windRegex) by apply with_literal_lookup.
    unfold Store.bind, Store.lift. by destruct (exec windRegex wind).
  - done.
Qed.

(** The call on the store: its outcome is that of [parseMETAR] on no store at
    all, whatever the store holds, and a call on a string leaves the store
    with its four objects added, each as its literal made it. *)
Lemma Store_parseMETAR_string data σ :
  Store.parseMETAR (JString data) σ
  = (parseMETAR (JString data),
     Store.with_literal (Store.with_literal (Store.with_literal
       (Store.with_literal σ reportTypeRegex) timeRegex) modifierRegex) windRegex).
Proof.
  rewrite parseMETAR_string, beforeWind_eq. unfold Store.parseMETAR, beforeTime. simpl.
  pose proof (split_nonempty data " ") as Hne.
  destruct (split data " ") as [|t q] eqn:Hq; [done|]. simpl.
  unfold Store.bind at 1. rewrite Store_parseReportType.
  unfold Store.bind at 1. rewrite Store_parseTime.
  unfold start. rewrite Hq, parseTime_eq. simpl.
  unfold Store.bind at 1. rewrite Store_parseModifier.
  unfold Store.bind at 1. rewrite Store_parseWind.
  by destruct (parseWind _).
Qed.

Lemma Store_parseMETAR_outcome data σ :
  (Store.parseMETAR data σ).1 = parseMETAR data.
Proof.
  destruct data; try done. by rewrite Store_parseMETAR_string.
Qed.

(** The flag [g] does give an object state: the same [exec] on the same
    string matches once and then does not. *)
Example global_flag_moves_lastIndex :
  let R := {| Store.source := timeRegex; Store.global := true; Store.sticky := false;
              Store.lastIndex := 0 |} in
  let '(m1, R1) := Store.RegExpBuiltinExec R "051900Z" in
  let '(m2, R2) := Store.RegExpBuiltinExec R1 "051900Z" in
  m1 = Some (time_groups "05" "19" "00" "Z") ∧ Store.lastIndex R1 = 7
  ∧ m2 = None ∧ Store.lastIndex R2 = 0.
Proof. vm_compute. repeat split; reflexivity. Qed.

(** C9. A call of [parseMETAR] on a string reads nothing but its argument and
    leaves nothing behind that a later call reads: run in any store of RegExp
    objects, whatever their flags and [lastIndex], it gives the same outcome;
    run again on the [METAR] it returned, in the store the first call left,
    it returns the very same object; and the first call leaves every object
    of the store as it was, adding its own four, each with [lastIndex] 0. *)
Theorem parseMETAR_no_hidden_state (σ σ' : Store.store) (data : string) (o : output) :
  Store.parseMETAR (JString data) σ = (Return o, σ') →
  (∀ σ2, (Store.parseMETAR (JString data) σ2).1 = Return o)
  ∧ (Store.parseMETAR (JString (METAR o)) σ').1 = Return o
  ∧ Store.objects σ'
    = (Store.objects σ
       ++ [Store.literal reportTypeRegex; Store.literal timeRegex;
           Store.literal modifierRegex; Store.literal windRegex])%list.
Proof.
  rewrite Store_parseMETAR_string. intros [= Ho <-].
  split; [|split].
  - intros σ2. by rewrite Store_parseMETAR_outcome.
  - rewrite Store_parseMETAR_outcome. by rewrite <- (parseMETAR_METAR _ _ Ho).
  - simpl. by rewrite <- !app_assoc.
Qed.

Lemma parseMETAR_no_hidden_state_witness :
  Store.parseMETAR (JString "EGLL 121350Z 1701112") Store.used_store
  = (Return EGLL_UNITS_12,
     Store.with_literal (Store.with_literal (Store.with_literal
       (Store.with_literal Store.used_store reportTypeRegex) timeRegex)
       modifierRegex) windRegex)
  ∧ (∀ σ2, (Store.parseMETAR (JString "EGLL 121350Z 1701112") σ2).1
           = Return EGLL_UNITS_12)
  ∧ (Store.parseMETAR (JString (METAR EGLL_UNITS_12))
       (Store.with_literal (Store.with_literal (Store.with_literal
          (Store.with_literal Store.used_store reportTypeRegex) timeRegex)
          modifierRegex) windRegex)).1
    = Return EGLL_UNITS_12
  ∧ Store.objects
      (Store.with_literal (Store.with_literal (Store.with_literal
         (Store.with_literal Store.used_store reportTypeRegex) timeRegex)
         modifierRegex) windRegex)
    = (Store.objects Store.used_store
       ++ [Store.literal reportTypeRegex; Store.literal timeRegex;
           Store.literal modifierRegex; Store.literal windRegex])%list.
Proof.
  split; [vm_compute; reflexivity|].
  apply (parseMETAR_no_hidden_state Store.used_store _ "EGLL 121350Z 1701112"
           EGLL_UNITS_12).
  vm_compute; reflexivity.
Defined.

(** C10. Whenever [parseMETAR] returns, the keys of [parsedMETAR] are among
    reportType, ICAO, timestamp, modifier and wind, and ICAO is one of them: it
    holds the token found in the station position, as it is.  The station block
    by itself stores what [shift] gives, [undefined] on an exhausted queue. *)
Theorem parseMETAR_keys (data : string) (o : output) :
  parseMETAR (JString data) = Return o →
  dom (parsedMETAR o) ⊆ KEYS
  ∧ "ICAO" ∈ dom (parsedMETAR o)
  ∧ parsedMETAR o !! "ICAO"
    = Some (of_token (shift (splitData (parseReportType (start data)))).1)
  ∧ (∀ st, result (parseICAO st) !! "ICAO" = Some (of_token (head (splitData st)))).
Proof.
  intros Ho. rewrite parseMETAR_string in Ho.
  destruct (beforeWind_inv data) as (st & Hst & Hdom & HICAO).
  rewrite Hst in Ho. simpl in Ho.
  destruct (splitData st) as [|w rest] eqn:Hq.
  { by rewrite (parseWind_nil _ Hq) in Ho. }
  rewrite (parseWind_cons _ _ _ Hq) in Ho. simpl in Ho. injection Ho as <-. simpl.
  assert (HI : (match exec windRegex (Some w) with
                | Some g => <["wind" := VGroups g]> (result st)
                | None => result st
                end) !! "ICAO"
               = Some (of_token (shift (splitData (parseReportType (start data)))).1)).
  { destruct (exec windRegex _); by simplify_map_eq. }
  split; [|split; [|split]].
  - unfold KEYS. destruct (exec windRegex _); rewrite ?dom_insert_L; set_solver.
  - apply elem_of_dom. rewrite HI. by eexists.
  - exact HI.
  - intros st'. rewrite parseICAO_result, lookup_insert_eq.
    by destruct (splitData st').
Qed.

Lemma parseMETAR_keys_witness :
  parseMETAR (JString "  ") = Return TWO_SPACES
  ∧ dom (parsedMETAR TWO_SPACES) ⊆ KEYS
  ∧ "ICAO" ∈ dom (parsedMETAR TWO_SPACES)
  ∧ parsedMETAR TWO_SPACES !! "ICAO"
    = Some (of_token (shift (splitData (parseReportType (start "  ")))).1)
  ∧ (∀ st, result (parseICAO st) !! "ICAO" = Some (of_token (head (splitData st)))).
Proof.
  split; [vm_compute; reflexivity|].
  apply (parseMETAR_keys "  " TWO_SPACES).
  vm_compute; reflexivity.
Defined.

(** C4. The report CYTZ 051900Z AUTO 17011KT: the station, the four parts of
    the time, the modifier, the wind with no gust, and no report type. *)
Theorem parseMETAR_CYTZ_AUTO :
  parseMETAR (JString "CYTZ 051900Z AUTO 17011KT") = Return CYTZ_AUTO
  ∧ parsedMETAR CYTZ_AUTO !! "ICAO" = Some (VString "CYTZ")
  ∧ parsedMETAR CYTZ_AUTO !! "timestamp"
    = Some (VGroups (list_to_map [("dayOfMonth", Some "05"); ("hours", Some "19");
                                  ("mins", Some "00"); ("timezone", Some "Z")]))
  ∧ parsedMETAR CYTZ_AUTO !! "modifier" = Some (VString "AUTO")
  ∧ parsedMETAR CYTZ_AUTO !! "wind"
    = Some (VGroups (list_to_map [("direction", Some "170"); ("speed", Some "11");
                                  ("gustingSpeed", None); ("speedUnits", Some "KT")]))
  ∧ parsedMETAR CYTZ_AUTO !! "reportType" = None.
Proof. repeat split; vm_compute; reflexivity. Qed.

(** C6. The report METAR CYTZ 051900Z 17011G20KT: the leading METAR becomes
    the report type and the gust of the wind group is 20. *)
Theorem parseMETAR_METAR_CYTZ_GUST :
  parseMETAR (JString "METAR CYTZ 051900Z 17011G20KT") = Return METAR_CYTZ_GUST
  ∧ parsedMETAR METAR_CYTZ_GUST !! "reportType" = Some (VString "METAR")
  ∧ ∃ wind, parsedMETAR METAR_CYTZ_GUST !! "wind" = Some (VGroups wind)
      ∧ wind !! "gustingSpeed" = Some (Some "20").
Proof.
  split; [vm_compute; reflexivity|]. split; [vm_compute; reflexivity|].
  exists (wind_groups "170" "11" (Some "20") "KT").
  split; vm_compute; reflexivity.
Qed.

(** C5. A token in the time position that is not DDHHMMZ is removed from the
    queue and sets no [timestamp] key, and the modifier and wind blocks go on
    with the tokens after it; so for CYTZ BADTIME AUTO 17011KT, where the
    modifier AUTO is still found. *)
Theorem parseMETAR_time_mismatch :
  (∀ data t rest,
     splitData (beforeTime data) = t :: rest →
     time_form t = None →
     parseMETAR (JString data)
     = (st ← parseWind (parseModifier {| result := result (beforeTime data);
                                         splitData := rest |});
        mret {| METAR := data; parsedMETAR := result st |})
     ∧ ∀ o, parseMETAR (JString data) = Return o →
            parsedMETAR o !! "timestamp" = None)
  ∧ parseMETAR (JString "CYTZ BADTIME AUTO 17011KT") = Return CYTZ_BADTIME
  ∧ parsedMETAR CYTZ_BADTIME !! "timestamp" = None
  ∧ parsedMETAR CYTZ_BADTIME !! "modifier" = Some (VString "AUTO").
Proof.
  split; [|repeat split; vm_compute; reflexivity].
  intros data t rest Hq Ht.
  assert (Heq : parseMETAR (JString data)
     = (st ← parseWind (parseModifier {| result := result (beforeTime data);
                                         splitData := rest |});
        mret {| METAR := data; parsedMETAR := result st |})).
  { rewrite parseMETAR_string, beforeWind_eq, parseTime_eq, Hq. simpl.
    by rewrite timeRegex_exec, Ht. }
  split; [exact Heq|]. intros o Ho. rewrite Heq in Ho. clear Heq.
  set (st := parseModifier _) in Ho.
  assert (Hdom : dom (result st) ⊆ {[ "modifier"; "reportType"; "ICAO" ]}).
  { etrans; [apply parseModifier_dom|]. simpl.
    pose proof (beforeTime_dom data). set_solver. }
  destruct (splitData st) as [|w rest'] eqn:Hq'.
  { by rewrite (parseWind_nil _ Hq') in Ho. }
  rewrite (parseWind_cons _ _ _ Hq') in Ho. simpl in Ho. injection Ho as <-. simpl.
  apply not_elem_of_dom.
  destruct (exec windRegex _); rewrite ?dom_insert_L; set_solver.
Qed.

Lemma parseMETAR_time_mismatch_witness :
  splitData (beforeTime "CYTZ BADTIME AUTO 17011KT") = ["BADTIME"; "AUTO"; "17011KT"]
  ∧ time_form "BADTIME" = None
  ∧ parseMETAR (JString "CYTZ BADTIME AUTO 17011KT")
    = (st ← parseWind (parseModifier
                         {| result := result (beforeTime "CYTZ BADTIME AUTO 17011KT");
                            splitData := ["AUTO"; "17011KT"] |});
       mret {| METAR := "CYTZ BADTIME AUTO 17011KT"; parsedMETAR := result st |}).
Proof.
  split; [vm_compute; reflexivity|]. split; [vm_compute; reflexivity|].
  apply (proj1 parseMETAR_time_mismatch
           "CYTZ BADTIME AUTO 17011KT" "BADTIME" ["AUTO"; "17011KT"]);
    vm_compute; reflexivity.
Defined.

(** *** The wind group *)

(** The units of line 125 are two word characters, not two letters: the token
    1701112 is no wind group in the words above, and it is recorded, with the
    units 12. *)
Lemma wind_units_counterexample : ¬ wind_as_documented.
Proof.
  intros H.
  destruct (H "EGLL 121350Z 1701112"
              {| result := list_to_map
                   [("ICAO", VString "EGLL");
                    ("timestamp", VGroups (time_groups "12" "13" "50" "Z"))];
                 splitData := ["1701112"] |}
              "1701112" []) as (o & Ho & Hwind).
  - vm_compute; reflexivity.
  - reflexivity.
  - assert (Ho' : parseMETAR (JString "EGLL 121350Z 1701112") = Return EGLL_UNITS_12)
      by (vm_compute; reflexivity).
    rewrite Ho' in Ho. injection Ho as <-. vm_compute in Hwind. discriminate.
Qed.

Lemma wind_form_not_VBR w :
  starts_with "VBR" w = false →
  wind_form direction_of_windRegex word w = wind_form digits3 word w.
Proof.
  intros Hw. unfold wind_form, direction_of_windRegex.
  repeat (destruct w as [|? w]; try done); simpl in Hw |- *;
    repeat match type of Hw with
    | context [Ascii.eqb ?c ?d] => destruct (Ascii.eqb c d); simpl in Hw |- *
    end; done.
Qed.

(** C2, amended. A token in the wind position made of three digits of
    direction, two digits of speed, optionally G and two digits of gust, and
    two word characters (a letter, a digit or the underscore) of units is
    decomposed into the [wind] record with the keys direction, speed,
    gustingSpeed and speedUnits; any other token that does not start with VRB
    or VBR leaves no [wind] key. *)
Theorem parseMETAR_wind (data : string) (st : state) (w : string) (rest : list string) :
  beforeWind data = Return st →
  splitData st = w :: rest →
  starts_with "VRB" w = false →
  starts_with "VBR" w = false →
  ∃ o, parseMETAR (JString data) = Return o
     ∧ parsedMETAR o !! "wind" = VGroups <$> wind_form digits3 word w.
Proof.
  intros Hst Hq _ HVBR.
  destruct (beforeWind_inv data) as (st' & Hst' & Hdom & _).
  rewrite Hst in Hst'. injection Hst' as <-.
  rewrite parseMETAR_string, Hst. simpl. rewrite (parseWind_cons _ _ _ Hq). simpl.
  eexists; split; [reflexivity|]. simpl.
  rewrite windRegex_exec, (wind_form_not_VBR _ HVBR).
  destruct (wind_form digits3 word w); simpl.
  - by rewrite lookup_insert_eq.
  - apply not_elem_of_dom. set_solver.
Qed.

Lemma parseMETAR_wind_witness :
  ∃ o, parseMETAR (JString "CYTZ 051900Z AUTO 17011G20KT") = Return o
     ∧ parsedMETAR o !! "wind" = Some (VGroups (wind_groups "170" "11" (Some "20") "KT")).
Proof.
  apply (parseMETAR_wind "CYTZ 051900Z AUTO 17011G20KT"
           {| result := list_to_map
                [("ICAO", VString "CYTZ");
                 ("timestamp", VGroups (time_groups "05" "19" "00" "Z"));
                 ("modifier", VString "AUTO")];
              splitData := ["17011G20KT"] |}
           "17011G20KT" []); vm_compute; reflexivity.
Defined.

(** The marker of line 114 is VRB; line 125 spells it VBR. *)
Example windRegex_VRB :
  exec windRegex (Some "VRB05KT") = None
  ∧ exec windRegex (Some "VBR05KT") = Some (wind_groups "VBR" "05" None "KT").
Proof. split; vm_compute; reflexivity. Qed.

(** *** Inputs with too few tokens *)

(** C1. The input CYTZ passes both checks of lines 59-67, its only token goes
    to ICAO, and the wind block then reads [length] from [undefined]: a
    TypeError is thrown and nothing is returned.  The same happens for METAR
    alone and for a report cut after the time. *)
Theorem parseMETAR_short_input_throws :
  typeof (JString "CYTZ") = "string"
  ∧ split "CYTZ" " " = ["CYTZ"]
  ∧ parseMETAR (JString "CYTZ")
    = Throw (TypeError "Cannot read properties of undefined (reading 'length')")
  ∧ parseMETAR (JString "METAR")
    = Throw (TypeError "Cannot read properties of undefined (reading 'length')")
  ∧ parseMETAR (JString "CYTZ 051900Z")
    = Throw (TypeError "Cannot read properties of undefined (reading 'length')").
Proof. repeat split; vm_compute; reflexivity. Qed.

(** C3. A string of two spaces splits into three empty tokens and is parsed
    into a record whose ICAO is the empty string; the empty string splits into
    one empty token and ends in the TypeError of the wind block.  The error of
    line 66 is thrown for no string at all, because [split] never returns the
    empty array. *)
Theorem parseMETAR_blank_input :
  split "  " " " = [""; ""; ""]
  ∧ parseMETAR (JString "  ") = Return TWO_SPACES
  ∧ split "" " " = [""]
  ∧ parseMETAR (JString "")
    = Throw (TypeError "Cannot read properties of undefined (reading 'length')")
  ∧ ∀ data, parseMETAR (JString data) ≠ Throw (Error "ERROR: Invalid data length").
Proof.
  do 4 (split; [vm_compute; reflexivity|]).
  intros data. rewrite parseMETAR_string.
  destruct (beforeWind_inv data) as (st & -> & _). simpl.
  destruct (splitData st) as [|w rest] eqn:Hq.
  - by rewrite (parseWind_nil _ Hq).
  - by rewrite (parseWind_cons _ _ _ Hq).
Qed.

(** ** Further properties of the parser *)

(** *** The token queue *)

Lemma split_length s sep : length (split s sep) = S (count_char sep s).
Proof.
  induction s as [|c s IH]; simpl; [done|].
  destruct (Ascii.eqb c sep); simpl; [by rewrite IH|].
  destruct (split s sep) eqn:E; simpl in *; lia.
Qed.

Lemma split_no_sep s sep : Forall (λ t, count_char sep t = 0) (split s sep).
Proof.
  induction s as [|c s IH]; simpl; [by repeat constructor|].
  destruct (Ascii.eqb c sep) eqn:E; [by constructor|].
  destruct (split s sep) as [|t ts]; [repeat constructor; simpl; by rewrite E|].
  inversion_clear IH. constructor; [|done]. simpl. by rewrite E.
Qed.

Lemma join_split s sep : join (split s sep) sep = s.
Proof.
  induction s as [|c s IH]; simpl; [done|].
  destruct (Ascii.eqb c sep) eqn:E.
  - apply Ascii.eqb_eq in E as ->.
    pose proof (split_nonempty s sep). destruct (split s sep); [done|].
    simpl in *. by rewrite IH.
  - pose proof (split_nonempty s sep). destruct (split s sep) as [|t ts]; [done|].
    simpl in *. destruct ts; simpl in *; by rewrite <- IH.
Qed.

Lemma split_app a b sep :
  split (a +:+ String sep b) sep = (split a sep ++ split b sep)%list.
Proof.
  induction a as [|c a IH]; simpl.
  - by rewrite Ascii.eqb_refl.
  - destruct (Ascii.eqb c sep); [by rewrite IH|].
    rewrite IH. pose proof (split_nonempty a sep). by destruct (split a sep).
Qed.


(** *** The blocks, token by token *)

Lemma parseMETAR_blocks data :
  parseMETAR (JString data)
  = (st ← blocks (start data); mret {| METAR := data; parsedMETAR := result st |}).
Proof.
  rewrite parseMETAR_string, beforeWind_eq. unfold blocks, beforeTime.
  by destruct (parseTime _).
Qed.

Lemma parseReportType_cons res t q :
  parseReportType {| result := res; splitData := t :: q |}
  = if is_reportType t
    then {| result := <["reportType" := VString t]> res; splitData := q |}
    else {| result := res; splitData := t :: q |}.
Proof.
  unfold parseReportType. simpl. rewrite reportTypeRegex_test. fold (is_reportType t).
  by destruct (is_reportType t).
Qed.

Lemma parseModifier_cons res t q :
  parseModifier {| result := res; splitData := t :: q |}
  = if is_modifier t
    then {| result := <["modifier" := VString t]> res; splitData := q |}
    else {| result := res; splitData := t :: q |}.
Proof.
  unfold parseModifier. simpl. rewrite modifierRegex_test. fold (is_modifier t).
  by destruct (is_modifier t).
Qed.

Lemma parseTime_cons res t q :
  parseTime {| result := res; splitData := t :: q |}
  = Return {| result := match time_form t with
                        | Some g => <["timestamp" := VGroups g]> res
                        | None => res
                        end;
              splitData := q |}.
Proof. rewrite parseTime_eq. simpl. by rewrite timeRegex_exec. Qed.

Lemma parseWind_form res w q :
  parseWind {| result := res; splitData := w :: q |}
  = Return {| result := match wind_form direction_of_windRegex word w with
                        | Some g => <["wind" := VGroups g]> res
                        | None => res
                        end;
              splitData := q |}.
Proof.
  rewrite (parseWind_cons {| result := res; splitData := w :: q |} w q eq_refl).
  simpl. by rewrite windRegex_exec.
Qed.



Lemma parseICAO_nil res :
  parseICAO {| result := res; splitData := [] |}
  = {| result := <["ICAO" := VUndefined]> res; splitData := [] |}.
Proof. reflexivity. Qed.

Lemma parseICAO_cons res t q :
  parseICAO {| result := res; splitData := t :: q |}
  = {| result := <["ICAO" := VString t]> res; splitData := q |}.
Proof. reflexivity. Qed.

Lemma parseModifier_nil res :
  parseModifier {| result := res; splitData := [] |}
  = {| result := res; splitData := [] |}.
Proof. reflexivity. Qed.

Lemma parseTime_nil res :
  parseTime {| result := res; splitData := [] |}
  = Return {| result := res; splitData := [] |}.
Proof. vm_compute; reflexivity. Qed.

(** The five blocks on a queue, in one piece: something is returned exactly
    when the queue, without an optional report type, holds a station token, a
    time token and, after an optional modifier, a wind token. *)
Lemma blocks_Return res q st' :
  blocks {| result := res; splitData := q |} = Return st' ↔
  ∃ i tm q3 w rest,
    skip_reportType q = i :: tm :: q3 ∧ skip_modifier q3 = w :: rest ∧
    st' = {| result :=
               with_wind w (with_modifier q3 (with_timestamp tm
                 (<["ICAO" := VString i]> (with_reportType q res))));
             splitData := rest |}.
Proof.
  unfold blocks.
  assert (Hrest : ∀ r1 q1,
    (st ← parseTime (parseICAO {| result := r1; splitData := q1 |});
     parseWind (parseModifier st)) = Return st' ↔
    ∃ i tm q3 w rest,
      q1 = i :: tm :: q3 ∧ skip_modifier q3 = w :: rest ∧
      st' = {| result :=
                 with_wind w (with_modifier q3 (with_timestamp tm
                   (<["ICAO" := VString i]> r1)));
               splitData := rest |}).
  { intros r1 q1. destruct q1 as [|i [|tm q3]].
    - split; [|by intros (?&?&?&?&?&?&_)].
      by rewrite parseICAO_nil, parseTime_nil.
    - split; [|by intros (?&?&?&?&?&?&_)].
      by rewrite parseICAO_cons, parseTime_nil.
    - rewrite parseICAO_cons, parseTime_cons.
      fold (with_timestamp tm (<["ICAO" := VString i]> r1)).
      cbn [mbind completion_bind].
      destruct q3 as [|m q4].
      + rewrite parseModifier_nil. split; [done|].
        by intros (?&?&?&?&?&[= <- <- <-]&?&_).
      + rewrite parseModifier_cons. unfold with_modifier.
        destruct (is_modifier m) eqn:Em.
        * destruct q4 as [|w rest].
          { split; [done|]. intros (?&?&?&?&?&[= <- <- <-]&Hm&_). simpl in Hm.
            by rewrite Em in Hm. }
          rewrite parseWind_form. split.
          { intros [= <-]. eexists i, tm, (m :: w :: rest), w, rest. simpl.
            by rewrite Em. }
          intros (?&?&?&?&?&[= <- <- <-]&Hm&->). simpl in Hm. rewrite Em in Hm.
          injection Hm as <- <-. by rewrite Em.
        * rewrite parseWind_form. split.
          { intros [= <-]. eexists i, tm, (m :: q4), m, q4. simpl.
            by rewrite Em. }
          intros (?&?&?&?&?&[= <- <- <-]&Hm&->). simpl in Hm. rewrite Em in Hm.
          injection Hm as <- <-. by rewrite Em. }
  destruct q as [|t q].
  - apply (Hrest res []).
  - rewrite parseReportType_cons. unfold skip_reportType, with_reportType.
    destruct (is_reportType t); apply Hrest.
Qed.

(** [parseMETAR] on a string, in terms of its tokens. *)
Lemma parseMETAR_Return data o :
  parseMETAR (JString data) = Return o ↔
  ∃ i tm q3 w rest,
    skip_reportType (split data " ") = i :: tm :: q3 ∧ skip_modifier q3 = w :: rest ∧
    o = {| METAR := data;
           parsedMETAR :=
             with_wind w (with_modifier q3 (with_timestamp tm
               (<["ICAO" := VString i]> (with_reportType (split data " ") ∅)))) |}.
Proof.
  rewrite parseMETAR_blocks. unfold start.
  destruct (blocks _) as [st'|e] eqn:Hb.
  - apply blocks_Return in Hb as (i & tm & q3 & w & rest & H1 & H2 & ->). simpl.
    split.
    + intros [= <-]. by eexists i, tm, q3, w, rest.
    + intros (i' & tm' & q3' & w' & rest' & H1' & H2' & ->).
      rewrite H1 in H1'. injection H1' as <- <- <-. rewrite H2 in H2'.
      by injection H2' as <- <-.
  - simpl. split; [done|]. intros (i & tm & q3 & w & rest & H1 & H2 & _).
    assert (blocks {| result := ∅; splitData := split data " " |}
            = Return {| result := with_wind w (with_modifier q3 (with_timestamp tm
                          (<["ICAO" := VString i]> (with_reportType (split data " ") ∅))));
                        splitData := rest |}) as Hb'.
    { apply blocks_Return. by eexists i, tm, q3, w, rest. }
    by rewrite Hb in Hb'.
Qed.

(** On a string the only thing [parseMETAR] throws is the TypeError of the
    wind block. *)
Lemma blocks_Throw st e :
  blocks st = Throw e →
  e = TypeError "Cannot read properties of undefined (reading 'length')".
Proof.
  unfold blocks. rewrite parseTime_eq. simpl.
  set (st' := parseModifier _). destruct (splitData st') as [|w rest] eqn:Hq.
  - rewrite (parseWind_nil _ Hq). by intros [= <-].
  - by rewrite (parseWind_cons _ _ _ Hq).
Qed.

(** Each block leaves the keys of the other blocks alone. *)
Lemma with_reportType_lookup q r k :
  k ≠ "reportType" → with_reportType q r !! k = r !! k.
Proof.
  intros Hk. unfold with_reportType. destruct q as [|t q]; [done|].
  destruct (is_reportType t); [|done]. by rewrite lookup_insert_ne.
Qed.

Lemma with_timestamp_lookup t r k :
  k ≠ "timestamp" → with_timestamp t r !! k = r !! k.
Proof.
  intros Hk. unfold with_timestamp.
  destruct (time_form t); [|done]. by rewrite lookup_insert_ne.
Qed.

Lemma with_modifier_lookup q r k :
  k ≠ "modifier" → with_modifier q r !! k = r !! k.
Proof.
  intros Hk. unfold with_modifier. destruct q as [|t q]; [done|].
  destruct (is_modifier t); [|done]. by rewrite lookup_insert_ne.
Qed.

Lemma with_wind_lookup w r k :
  k ≠ "wind" → with_wind w r !! k = r !! k.
Proof.
  intros Hk. unfold with_wind.
  destruct (wind_form _ _ w); [|done]. by rewrite lookup_insert_ne.
Qed.

Lemma beforeTime_eq data :
  beforeTime data
  = parseICAO {| result := with_reportType (split data " ") ∅;
                 splitData := skip_reportType (split data " ") |}.
Proof.
  unfold beforeTime, start. destruct (split data " ") as [|t q]; [done|].
  rewrite parseReportType_cons. simpl. by destruct (is_reportType t).
Qed.

(** X1. Line 64 cuts the input at every single space: there is one token
    more than there are spaces, no token holds a space, and the tokens joined
    by single spaces are the input again. *)
Theorem tokens_of_input (data : string) :
  length (splitData (start data)) = S (count_char " " data)
  ∧ Forall (λ t, count_char " " t = 0) (splitData (start data))
  ∧ join (splitData (start data)) " " = data.
Proof.
  simpl. split; [apply split_length|]. split; [apply split_no_sep|apply join_split].
Qed.

(** X2. The first token is the report type exactly when it is METAR or SPECI;
    the station is then the second token, and otherwise the first.  On a
    returned record the station is always a string. *)
Theorem parseMETAR_reportType_ICAO (data : string) (o : output) (t : string)
    (q : list string) :
  split data " " = t :: q →
  parseMETAR (JString data) = Return o →
  parsedMETAR o !! "reportType" = (if is_reportType t then Some (VString t) else None)
  ∧ ∃ i, (if is_reportType t then head q else Some t) = Some i
       ∧ parsedMETAR o !! "ICAO" = Some (VString i).
Proof.
  intros Hq (i & tm & q3 & w & rest & H1 & H2 & ->)%parseMETAR_Return. simpl.
  rewrite Hq in *. simpl in H1.
  rewrite !with_wind_lookup, !with_modifier_lookup, !with_timestamp_lookup by done.
  rewrite lookup_insert_ne, lookup_insert_eq by done. unfold with_reportType.
  destruct (is_reportType t).
  - rewrite lookup_insert_eq. split; [done|]. exists i. by rewrite H1.
  - split; [done|]. exists i. by injection H1 as -> _.
Qed.

Lemma beforeTime_queue data i tm q3 :
  skip_reportType (split data " ") = i :: tm :: q3 →
  splitData (beforeTime data) = tm :: q3.
Proof. intros H. by rewrite beforeTime_eq, H. Qed.

(** X3. On a returned record the [timestamp] key holds the decomposition of
    the token in the time position when that token is DDHHMMZ, and is absent
    otherwise. *)
Theorem parseMETAR_timestamp (data : string) (o : output) (t : string)
    (rest : list string) :
  splitData (beforeTime data) = t :: rest →
  parseMETAR (JString data) = Return o →
  parsedMETAR o !! "timestamp" = VGroups <$> time_form t.
Proof.
  intros Hq (i & tm & q3 & w & rest' & H1 & H2 & ->)%parseMETAR_Return. simpl.
  rewrite (beforeTime_queue _ _ _ _ H1) in Hq. injection Hq as <- <-.
  rewrite with_wind_lookup, with_modifier_lookup by done.
  unfold with_timestamp. destruct (time_form tm); simpl.
  - by rewrite lookup_insert_eq.
  - rewrite lookup_insert_ne, with_reportType_lookup by done. done.
Qed.

(** X4. The token after the time is looked at before it is taken: when it is
    AUTO or COR it becomes the modifier and the wind is read from the token
    after it; otherwise there is no [modifier] key and this very token is
    read as the wind. *)
Theorem parseMETAR_modifier (data : string) (o : output) (t m : string)
    (rest : list string) :
  splitData (beforeTime data) = t :: m :: rest →
  parseMETAR (JString data) = Return o →
  if is_modifier m then
    parsedMETAR o !! "modifier" = Some (VString m)
    ∧ ∃ w, head rest = Some w
         ∧ parsedMETAR o !! "wind" = VGroups <$> exec windRegex (Some w)
  else
    parsedMETAR o !! "modifier" = None
    ∧ parsedMETAR o !! "wind" = VGroups <$> exec windRegex (Some m).
Proof.
  intros Hq (i & tm & q3 & w & rest' & H1 & H2 & ->)%parseMETAR_Return. simpl.
  rewrite (beforeTime_queue _ _ _ _ H1) in Hq. injection Hq as <- ->.
  set (r := with_timestamp tm _).
  assert (Hr : r !! "modifier" = None ∧ r !! "wind" = None).
  { unfold r. rewrite !with_timestamp_lookup, !lookup_insert_ne,
      !with_reportType_lookup by done. done. }
  destruct Hr as [Hm Hw]. unfold skip_modifier in H2. unfold with_modifier.
  rewrite !windRegex_exec.
  destruct (is_modifier m).
  - subst rest. split.
    + rewrite with_wind_lookup by done. apply lookup_insert_eq.
    + exists w. split; [done|]. rewrite windRegex_exec. unfold with_wind.
      destruct (wind_form _ _ w); simpl.
      * apply lookup_insert_eq.
      * by rewrite lookup_insert_ne.
  - injection H2 as <- <-. split.
    + by rewrite with_wind_lookup by done.
    + unfold with_wind. destruct (wind_form _ _ m); simpl; [|done].
      by rewrite lookup_insert_eq.
Qed.

(** X5. The wind block as line 125 has it, for every token: the direction is
    the three letters VBR or three digits, the speed two digits, the gust an
    optional G and two digits, the units two word characters.  A token that
    starts with VRB therefore never gives a [wind] key. *)
Theorem parseMETAR_wind_exact (data : string) (st : state) (w : string)
    (rest : list string) :
  beforeWind data = Return st →
  splitData st = w :: rest →
  ∃ o, parseMETAR (JString data) = Return o
     ∧ parsedMETAR o !! "wind" = VGroups <$> wind_form direction_of_windRegex word w
     ∧ (starts_with "VRB" w = true → parsedMETAR o !! "wind" = None).
Proof.
  intros Hst Hq.
  destruct (beforeWind_inv data) as (st' & Hst' & Hdom & _).
  rewrite Hst in Hst'. injection Hst' as <-.
  rewrite parseMETAR_string, Hst. simpl. rewrite (parseWind_cons _ _ _ Hq). simpl.
  eexists; split; [reflexivity|]. simpl. rewrite windRegex_exec.
  assert (Hw : result st !! "wind" = None) by (apply not_elem_of_dom; set_solver).
  assert (HVRB : starts_with "VRB" w = true →
                 wind_form direction_of_windRegex word w = None).
  { clear. intros H. unfold wind_form, direction_of_windRegex.
    repeat (destruct w as [|? w]; try done); simpl in H |- *;
      repeat match type of H with
      | context [Ascii.eqb ?c ?d] =>
          let E := fresh in destruct (Ascii.eqb c d) eqn:E;
          [apply Ascii.eqb_eq in E; subst|]; simpl in H |- *
      end; done. }
  destruct (wind_form _ _ w) eqn:Ew; simpl.
  - rewrite lookup_insert_eq. split; [done|]. intros H%HVRB. done.
  - done.
Qed.

(** *** The sub-records *)

Lemma skip_reportType_elem x q : x ∈ skip_reportType q → x ∈ q.
Proof.
  destruct q as [|t q]; [done|]. simpl. destruct (is_reportType t); [|done].
  apply list_elem_of_further.
Qed.

Lemma skip_modifier_elem x q : x ∈ skip_modifier q → x ∈ q.
Proof.
  destruct q as [|t q]; [done|]. simpl. destruct (is_modifier t); [|done].
  apply list_elem_of_further.
Qed.

Ltac split_andb :=
  repeat match goal with
  | H : _ && _ = true |- _ => apply andb_prop in H as [? ?]
  end.

Lemma time_form_Some t g :
  time_form t = Some g →
  ∃ dd hh mm, g = time_groups dd hh mm "Z"
    ∧ two_digits dd = true ∧ two_digits hh = true ∧ two_digits mm = true
    ∧ t = dd +:+ hh +:+ mm +:+ "Z".
Proof.
  unfold time_form. repeat (destruct t as [|? t]; try done).
  destruct (_ && _) eqn:E; [|done]. intros [= <-].
  split_andb.
  match goal with H : Ascii.eqb _ _ = true |- _ => apply Ascii.eqb_eq in H as -> end.
  eexists (str2 _ _), (str2 _ _), (str2 _ _). simpl.
  repeat split; try done; by apply andb_true_intro.
Qed.

Lemma wind_form_Some w g :
  wind_form direction_of_windRegex word w = Some g →
  ∃ dir spd gust units, g = wind_groups dir spd gust units
    ∧ direction_of_windRegex dir = true ∧ two_digits spd = true
    ∧ from_option two_digits true gust = true ∧ two_words units = true
    ∧ w = dir +:+ spd +:+ from_option (String.append "G") "" gust +:+ units.
Proof.
  unfold wind_form. repeat (destruct w as [|? w]; try done).
  - destruct (_ && _) eqn:E; [|done]. intros [= <-].
    split_andb.
    eexists (str3 _ _ _), (str2 _ _), None, (str2 _ _). simpl.
    repeat split; try done; by apply andb_true_intro.
  - destruct (_ && _) eqn:E; [|done]. intros [= <-].
    split_andb.
    match goal with H : Ascii.eqb _ _ = true |- _ => apply Ascii.eqb_eq in H as -> end.
    eexists (str3 _ _ _), (str2 _ _), (Some (str2 _ _)), (str2 _ _). simpl.
    repeat split; try done; by apply andb_true_intro.
Qed.

Lemma time_text_groups dd hh mm z :
  time_text (time_groups dd hh mm z) = Some (dd +:+ hh +:+ mm +:+ z).
Proof. reflexivity. Qed.

Lemma wind_text_groups dir spd gust units :
  wind_text (wind_groups dir spd gust units)
  = Some (dir +:+ spd +:+ from_option (String.append "G") "" gust +:+ units).
Proof. by destruct gust. Qed.

(** X6. A [timestamp] in a returned record has exactly the groups dayOfMonth,
    hours and mins, of two digits each, and timezone, which is Z; put together
    again they are a token of the input. *)
Theorem parseMETAR_timestamp_record (data : string) (o : output) (v : value) :
  parseMETAR (JString data) = Return o →
  parsedMETAR o !! "timestamp" = Some v →
  ∃ dd hh mm,
    v = VGroups (time_groups dd hh mm "Z")
    ∧ two_digits dd = true ∧ two_digits hh = true ∧ two_digits mm = true
    ∧ time_text (time_groups dd hh mm "Z") = Some (dd +:+ hh +:+ mm +:+ "Z")
    ∧ dd +:+ hh +:+ mm +:+ "Z" ∈ split data " ".
Proof.
  intros (i & tm & q3 & w & rest' & H1 & H2 & ->)%parseMETAR_Return. simpl.
  rewrite with_wind_lookup, with_modifier_lookup by done.
  unfold with_timestamp. destruct (time_form tm) as [g|] eqn:Et.
  - rewrite lookup_insert_eq. intros [= <-].
    apply time_form_Some in Et as (dd & hh & mm & -> & ? & ? & ? & ->).
    exists dd, hh, mm. repeat split; try done.
    apply skip_reportType_elem. rewrite H1. set_solver.
  - rewrite lookup_insert_ne, with_reportType_lookup by done. done.
Qed.

(** X7. A [wind] in a returned record has exactly the groups direction (VBR
    or three digits), speed (two digits), gustingSpeed ([undefined] or two
    digits) and speedUnits (two word characters); put together again, with G
    before the gust, they are a token of the input. *)
Theorem parseMETAR_wind_record (data : string) (o : output) (v : value) :
  parseMETAR (JString data) = Return o →
  parsedMETAR o !! "wind" = Some v →
  ∃ dir spd gust units,
    v = VGroups (wind_groups dir spd gust units)
    ∧ direction_of_windRegex dir = true ∧ two_digits spd = true
    ∧ from_option two_digits true gust = true ∧ two_words units = true
    ∧ ∃ w, wind_text (wind_groups dir spd gust units) = Some w
         ∧ w ∈ split data " ".
Proof.
  intros (i & tm & q3 & w & rest' & H1 & H2 & ->)%parseMETAR_Return. simpl.
  unfold with_wind. destruct (wind_form _ _ w) as [g|] eqn:Ew.
  - rewrite lookup_insert_eq. intros [= <-].
    apply wind_form_Some in Ew as (dir & spd & gust & units & -> & ? & ? & ? & ? & ->).
    exists dir, spd, gust, units. repeat split; try done.
    eexists. split; [apply wind_text_groups|].
    apply skip_reportType_elem. rewrite H1.
    do 2 apply list_elem_of_further. apply skip_modifier_elem. rewrite H2. set_solver.
  - rewrite with_modifier_lookup, with_timestamp_lookup, lookup_insert_ne,
      with_reportType_lookup by done. done.
Qed.

(** *** How many tokens it takes *)

Lemma skip_reportType_length q : (length q ≤ S (length (skip_reportType q)))%nat.
Proof. destruct q as [|t q]; simpl; [lia|]. destruct (is_reportType t); simpl; lia. Qed.

Lemma skip_modifier_length q : (length q ≤ S (length (skip_modifier q)))%nat.
Proof. destruct q as [|t q]; simpl; [lia|]. destruct (is_modifier t); simpl; lia. Qed.

Lemma skip_reportType_le q : (length (skip_reportType q) ≤ length q)%nat.
Proof. destruct q as [|t q]; simpl; [lia|]. destruct (is_reportType t); simpl; lia. Qed.

(** With at most two tokens nothing is left for the wind block; with five or
    more, something always is. *)
Lemma parseMETAR_few_tokens data :
  (length (split data " ") ≤ 2)%nat →
  parseMETAR (JString data)
  = Throw (TypeError "Cannot read properties of undefined (reading 'length')").
Proof.
  intros Hn. rewrite parseMETAR_blocks.
  destruct (blocks (start data)) as [st'|e] eqn:Hb; simpl.
  - apply blocks_Return in Hb as (i & tm & q3 & w & rest & H1 & H2 & _).
    pose proof (skip_reportType_le (split data " ")) as Hle.
    rewrite H1 in Hle. simpl in Hle.
    destruct q3; [done|]. simpl in Hle. lia.
  - by rewrite (blocks_Throw _ _ Hb).
Qed.

Lemma parseMETAR_many_tokens data :
  (5 ≤ length (split data " "))%nat →
  ∃ o, parseMETAR (JString data) = Return o ∧ METAR o = data.
Proof.
  intros Hn.
  pose proof (skip_reportType_length (split data " ")) as Hle.
  destruct (skip_reportType (split data " ")) as [|i [|tm q3]] eqn:H1;
    simpl in Hle; try lia.
  pose proof (skip_modifier_length q3) as Hle'.
  destruct (skip_modifier q3) as [|w rest] eqn:H2; simpl in Hle'; [lia|].
  eexists {| METAR := data |}. split; [|reflexivity].
  apply parseMETAR_Return. by eexists i, tm, q3, w, rest.
Qed.

(** X8. A string with fewer than two spaces has no token for the wind block:
    [parseMETAR] throws the TypeError of line 126. *)
Theorem parseMETAR_too_few_spaces (data : string) :
  (count_char " " data < 2)%nat →
  parseMETAR (JString data)
  = Throw (TypeError "Cannot read properties of undefined (reading 'length')").
Proof.
  intros Hn. apply parseMETAR_few_tokens.
  rewrite split_length. lia.
Qed.

(** X9. A string with at least four spaces always has a token for the wind
    block, with or without report type and modifier: [parseMETAR] returns. *)
Theorem parseMETAR_enough_spaces (data : string) :
  (4 ≤ count_char " " data)%nat →
  ∃ o, parseMETAR (JString data) = Return o ∧ METAR o = data.
Proof.
  intros Hn. apply parseMETAR_many_tokens.
  rewrite split_length. lia.
Qed.

(** *** What is not looked at *)

Lemma skip_reportType_app q e :
  q ≠ [] → skip_reportType (q ++ e) = (skip_reportType q ++ e)%list.
Proof. destruct q as [|t q]; [done|]. simpl. by destruct (is_reportType t). Qed.

Lemma skip_modifier_app q e :
  q ≠ [] → skip_modifier (q ++ e) = (skip_modifier q ++ e)%list.
Proof. destruct q as [|t q]; [done|]. simpl. by destruct (is_modifier t). Qed.

(** X10. Whatever follows the wind token is ignored: adding a space and any
    text to an input on which [parseMETAR] returns changes the [METAR] field
    and nothing in [parsedMETAR]. *)
Theorem parseMETAR_ignores_rest (data extra : string) (o : output) :
  parseMETAR (JString data) = Return o →
  parseMETAR (JString (data +:+ String " " extra))
  = Return {| METAR := data +:+ String " " extra; parsedMETAR := parsedMETAR o |}.
Proof.
  intros (i & tm & q3 & w & rest & H1 & H2 & ->)%parseMETAR_Return. simpl.
  apply parseMETAR_Return. rewrite split_app.
  pose proof (split_nonempty data " ") as Hne.
  exists i, tm, (q3 ++ split extra " ")%list, w, (rest ++ split extra " ")%list.
  assert (Hq3 : q3 ≠ []) by (by destruct q3).
  split; [by rewrite skip_reportType_app, H1|].
  split; [by rewrite skip_modifier_app, H2|].
  f_equal. f_equal.
  replace (with_modifier (q3 ++ split extra " ")) with (with_modifier q3)
    by (by destruct q3).
  do 3 f_equal. by destruct (split data " ").
Qed.

(** X11. An input that starts with a space has the empty string as its first
    token: on a returned record the station is the empty string and there is
    no report type, whatever follows. *)
Theorem parseMETAR_leading_space (data : string) (o : output) :
  parseMETAR (JString (String " " data)) = Return o →
  parsedMETAR o !! "ICAO" = Some (VString "")
  ∧ parsedMETAR o !! "reportType" = None.
Proof.
  intros (i & tm & q3 & w & rest & H1 & H2 & ->)%parseMETAR_Return. simpl in *.
  injection H1 as <- _.
  rewrite !with_wind_lookup, !with_modifier_lookup, !with_timestamp_lookup by done.
  by rewrite lookup_insert_eq, lookup_insert_ne.
Qed.

(** X12. On a string [parseMETAR] throws nothing but the TypeError of the wind
    block: neither of its two [Error]s, and no TypeError from the [groups] of
    a failed match. *)
Theorem parseMETAR_string_throws (data : string) (e : exn) :
  parseMETAR (JString data) = Throw e →
  e = TypeError "Cannot read properties of undefined (reading 'length')".
Proof.
  rewrite parseMETAR_blocks.
  destruct (blocks (start data)) as [st'|e'] eqn:Hb; [done|].
  simpl. intros [= <-]. by apply blocks_Throw in Hb.
Qed.

Lemma parseMETAR_reportType_ICAO_witness :
  split "METAR CYTZ 051900Z 17011G20KT" " " = ["METAR"; "CYTZ"; "051900Z"; "17011G20KT"]
  ∧ parseMETAR (JString "METAR CYTZ 051900Z 17011G20KT") = Return METAR_CYTZ_GUST
  ∧ parsedMETAR METAR_CYTZ_GUST !! "reportType" = Some (VString "METAR")
  ∧ ∃ i, Some "CYTZ" = Some i ∧ parsedMETAR METAR_CYTZ_GUST !! "ICAO" = Some (VString i).
Proof.
  split; [vm_compute; reflexivity|]. split; [vm_compute; reflexivity|].
  apply (parseMETAR_reportType_ICAO "METAR CYTZ 051900Z 17011G20KT" METAR_CYTZ_GUST
           "METAR" ["CYTZ"; "051900Z"; "17011G20KT"]); vm_compute; reflexivity.
Defined.

Lemma parseMETAR_timestamp_witness :
  splitData (beforeTime "CYTZ 051900Z AUTO 17011KT") = ["051900Z"; "AUTO"; "17011KT"]
  ∧ parseMETAR (JString "CYTZ 051900Z AUTO 17011KT") = Return CYTZ_AUTO
  ∧ parsedMETAR CYTZ_AUTO !! "timestamp" = Some (VGroups (time_groups "05" "19" "00" "Z")).
Proof.
  split; [vm_compute; reflexivity|]. split; [vm_compute; reflexivity|].
  apply (parseMETAR_timestamp "CYTZ 051900Z AUTO 17011KT" CYTZ_AUTO
           "051900Z" ["AUTO"; "17011KT"]); vm_compute; reflexivity.
Defined.

Lemma parseMETAR_modifier_witness :
  splitData (beforeTime "CYTZ 051900Z AUTO 17011KT") = ["051900Z"; "AUTO"; "17011KT"]
  ∧ parseMETAR (JString "CYTZ 051900Z AUTO 17011KT") = Return CYTZ_AUTO
  ∧ parsedMETAR CYTZ_AUTO !! "modifier" = Some (VString "AUTO")
  ∧ ∃ w, head ["17011KT"] = Some w
       ∧ parsedMETAR CYTZ_AUTO !! "wind" = VGroups <$> exec windRegex (Some w).
Proof.
  split; [vm_compute; reflexivity|]. split; [vm_compute; reflexivity|].
  apply (parseMETAR_modifier "CYTZ 051900Z AUTO 17011KT" CYTZ_AUTO
           "051900Z" "AUTO" ["17011KT"]); vm_compute; reflexivity.
Defined.

Lemma parseMETAR_wind_exact_witness :
  ∃ o, parseMETAR (JString "CYTZ 051900Z VBR05KT") = Return o
     ∧ parsedMETAR o !! "wind" = Some (VGroups (wind_groups "VBR" "05" None "KT"))
     ∧ (starts_with "VRB" "VBR05KT" = true → parsedMETAR o !! "wind" = None).
Proof.
  apply (parseMETAR_wind_exact "CYTZ 051900Z VBR05KT"
           {| result := list_to_map
                [("ICAO", VString "CYTZ");
                 ("timestamp", VGroups (time_groups "05" "19" "00" "Z"))];
              splitData := ["VBR05KT"] |}
           "VBR05KT" []); vm_compute; reflexivity.
Defined.

Lemma parseMETAR_timestamp_record_witness :
  parseMETAR (JString "CYTZ 051900Z AUTO 17011KT") = Return CYTZ_AUTO
  ∧ ∃ dd hh mm,
      VGroups (time_groups "05" "19" "00" "Z") = VGroups (time_groups dd hh mm "Z")
      ∧ two_digits dd = true ∧ two_digits hh = true ∧ two_digits mm = true
      ∧ time_text (time_groups dd hh mm "Z") = Some (dd +:+ hh +:+ mm +:+ "Z")
      ∧ dd +:+ hh +:+ mm +:+ "Z" ∈ split "CYTZ 051900Z AUTO 17011KT" " ".
Proof.
  split; [vm_compute; reflexivity|].
  apply (parseMETAR_timestamp_record "CYTZ 051900Z AUTO 17011KT" CYTZ_AUTO
           (VGroups (time_groups "05" "19" "00" "Z"))); vm_compute; reflexivity.
Defined.

Lemma parseMETAR_wind_record_witness :
  parseMETAR (JString "METAR CYTZ 051900Z 17011G20KT") = Return METAR_CYTZ_GUST
  ∧ ∃ dir spd gust units,
      VGroups (wind_groups "170" "11" (Some "20") "KT")
      = VGroups (wind_groups dir spd gust units)
      ∧ direction_of_windRegex dir = true ∧ two_digits spd = true
      ∧ from_option two_digits true gust = true ∧ two_words units = true
      ∧ ∃ w, wind_text (wind_groups dir spd gust units) = Some w
           ∧ w ∈ split "METAR CYTZ 051900Z 17011G20KT" " ".
Proof.
  split; [vm_compute; reflexivity|].
  apply (parseMETAR_wind_record "METAR CYTZ 051900Z 17011G20KT" METAR_CYTZ_GUST
           (VGroups (wind_groups "170" "11" (Some "20") "KT"))); vm_compute; reflexivity.
Defined.

Lemma parseMETAR_too_few_spaces_witness :
  (count_char " " "CYTZ 051900Z" < 2)%nat
  ∧ parseMETAR (JString "CYTZ 051900Z")
    = Throw (TypeError "Cannot read properties of undefined (reading 'length')").
Proof.
  split; [simpl; lia|]. apply (parseMETAR_too_few_spaces "CYTZ 051900Z"). simpl; lia.
Defined.

Lemma parseMETAR_enough_spaces_witness :
  (4 ≤ count_char " " "SPECI CYTZ 051900Z COR 17011KT")%nat
  ∧ ∃ o, parseMETAR (JString "SPECI CYTZ 051900Z COR 17011KT") = Return o
       ∧ METAR o = "SPECI CYTZ 051900Z COR 17011KT".
Proof.
  split; [simpl; lia|].
  apply (parseMETAR_enough_spaces "SPECI CYTZ 051900Z COR 17011KT"). simpl; lia.
Defined.

Lemma parseMETAR_ignores_rest_witness :
  parseMETAR (JString "CYTZ 051900Z AUTO 17011KT") = Return CYTZ_AUTO
  ∧ parseMETAR (JString ("CYTZ 051900Z AUTO 17011KT" +:+ String " " "9SM CLR 29/23 A3006"))
    = Return {| METAR := "CYTZ 051900Z AUTO 17011KT" +:+ String " " "9SM CLR 29/23 A3006";
                parsedMETAR := parsedMETAR CYTZ_AUTO |}.
Proof.
  split; [vm_compute; reflexivity|].
  apply (parseMETAR_ignores_rest "CYTZ 051900Z AUTO 17011KT" "9SM CLR 29/23 A3006"
           CYTZ_AUTO).
  vm_compute; reflexivity.
Defined.

Lemma parseMETAR_leading_space_witness :
  parseMETAR (JString (String " " "CYTZ 051900Z 17011KT")) = Return LEADING_SPACE
  ∧ parsedMETAR LEADING_SPACE !! "ICAO" = Some (VString "")
  ∧ parsedMETAR LEADING_SPACE !! "reportType" = None.
Proof.
  split; [vm_compute; reflexivity|].
  apply (parseMETAR_leading_space "CYTZ 051900Z 17011KT" LEADING_SPACE).
  vm_compute; reflexivity.
Defined.

Lemma parseMETAR_string_throws_witness :
  parseMETAR (JString "CYTZ")
  = Throw (TypeError "Cannot read properties of undefined (reading 'length')")
  ∧ TypeError "Cannot read properties of undefined (reading 'length')"
    = TypeError "Cannot read properties of undefined (reading 'length')".
Proof.
  split; [vm_compute; reflexivity|].
  apply (parseMETAR_string_throws "CYTZ"). vm_compute; reflexivity.
Defined.

(** ** The answer of the weather service, verified *)

Section api.
Variables ToString_json JSON_stringify : json → string.
Variable fetch : request → promise Response.

Lemma strict_equal_one v : strict_equal_number v one = true ↔ v = Some (JsNum one).
Proof.
  split; [|intros ->; vm_compute; reflexivity].
  destruct v as [[| | y | | |]|]; try done. unfold strict_equal_number.
  replace (is_NaN one) with false by (vm_compute; reflexivity).
  replace (is_zero one) with false by (vm_compute; reflexivity).
  rewrite andb_false_r, andb_true_r, orb_false_l.
  intros [_ ->%Z.eqb_eq]%andb_prop. done.
Qed.

Lemma number_of_nat_one n : number_of_nat n = one ↔ n = 1.
Proof.
  split; [|intros ->; vm_compute; reflexivity]. unfold number_of_nat.
  replace one with (1023 * 2 ^ 52)%Z by (vm_compute; reflexivity).
  destruct (Z.eqb_spec (Z.of_nat n) 0) as [|Hn].
  { intros H. exfalso. revert H. vm_compute. discriminate. }
  assert (Hpos : (0 < Z.of_nat n)%Z) by lia.
  pose proof (Z.log2_spec _ Hpos) as [Hlo _].
  pose proof (Z.log2_nonneg (Z.of_nat n)) as He.
  set (e := Z.log2 (Z.of_nat n)) in *.
  assert (Hm : (0 ≤ (Z.of_nat n - 2 ^ e) * 2 ^ (52 - e))%Z).
  { apply Z.mul_nonneg_nonneg; [lia|]. apply Z.pow_nonneg. lia. }
  set (m := ((Z.of_nat n - 2 ^ e) * 2 ^ (52 - e))%Z) in *.
  assert (HP : (0 < 2 ^ 52)%Z) by (apply Z.pow_pos_nonneg; lia).
  set (P := (2 ^ 52)%Z) in *.
  rewrite Z.mul_add_distr_r. intros H.
  assert (He' : (0 ≤ e * P)%Z) by (apply Z.mul_nonneg_nonneg; lia).
  assert (He0 : (e * P = 0)%Z) by lia.
  apply Z.mul_eq_0 in He0 as [He0|]; [|lia].
  assert (Hm0 : m = 0%Z) by lia. unfold m in Hm0. rewrite He0 in Hm0, Hlo.
  rewrite Z.sub_0_r in Hm0. fold P in Hm0.
  apply Z.mul_eq_0 in Hm0 as [Hz|]; [|lia].
  rewrite Z.pow_0_r in Hz. lia.
Qed.

Lemma length_one_inv d len :
  ToBoolean (Some d) = true →
  get (Some d) K_length = Return len →
  strict_equal_number len one = true →
  ∀ v, get (Some d) K_0 = Return v → single_item d v.
Proof.
  intros Hd Hlen Hone%strict_equal_one v Hv. subst len.
  destruct d as [| | |s|items|p]; simpl in *; try done.
  - injection Hlen as Hlen%number_of_nat_one.
    destruct s as [|c [|? ?]]; try done. injection Hv as <-. right; left. by exists c.
  - injection Hlen as Hlen%number_of_nat_one.
    destruct items as [|x [|? ?]]; try done. injection Hv as <-. left. by exists x.
  - injection Hlen as Hlen. injection Hv as <-. right; right. by exists p.
Qed.

Lemma single_item_get d v :
  single_item d v →
  ToBoolean (Some d) = true
  ∧ (∃ len, get (Some d) K_length = Return len ∧ strict_equal_number len one = true)
  ∧ get (Some d) K_0 = Return v.
Proof.
  intros [(x & -> & ->)|[(c & -> & ->)|(p & -> & Hl & ->)]]; simpl.
  - split; [done|]. split; [|done]. eexists; split; [done|]. by apply strict_equal_one.
  - split; [done|]. split; [|done]. eexists; split; [done|]. by apply strict_equal_one.
  - split; [done|]. split; [|done]. eexists; split; [by rewrite Hl|].
    by apply strict_equal_one.
Qed.

#[local] Arguments ToBoolean : simpl never.
#[local] Arguments strict_equal_number : simpl never.
#[local] Arguments get : simpl never.

(** The handler of the body, case by case. *)
Lemma checkJSON_Return j v :
  checkJSON ToString_json JSON_stringify j = Return v ↔
  ∃ props d, j = JsObj props
    ∧ lookup_prop props "results" = Some (JsNum one)
    ∧ lookup_prop props "data" = Some d
    ∧ single_item d v.
Proof.
  unfold checkJSON. split.
  - destruct j as [| | | | |props]; try done.
    change (get (Some (JsObj props)) K_results)
      with (Return (lookup_prop props "results") : completion _).
    change (get (Some (JsObj props)) K_data)
      with (Return (lookup_prop props "data") : completion _).
    simpl. remember (lookup_prop props "results") as r eqn:Er.
    destruct (strict_equal_number r one) eqn:Hr; [|by rewrite orb_true_r].
    apply strict_equal_one in Hr as ->.
    replace (ToBoolean (Some (JsNum one))) with true by (vm_compute; reflexivity).
    simpl.
    destruct (lookup_prop props "data") as [d|] eqn:Hd; [|by unfold ToBoolean].
    destruct (ToBoolean (Some d)) eqn:Ht; [|by simpl]. simpl.
    destruct (get (Some d) K_length) as [len|] eqn:Hlen; [|by simpl]. simpl.
    destruct (strict_equal_number len one) eqn:Hone; [|by simpl]. simpl.
    intros Hv. exists props, d. repeat split; try done.
    by eapply length_one_inv.
  - intros (props & d & -> & Hr & Hd & Hs).
    change (get (Some (JsObj props)) K_results)
      with (Return (lookup_prop props "results") : completion _).
    change (get (Some (JsObj props)) K_data)
      with (Return (lookup_prop props "data") : completion _).
    simpl. rewrite Hr, Hd.
    replace (ToBoolean (Some (JsNum one))) with true by (vm_compute; reflexivity).
    replace (strict_equal_number (Some (JsNum one)) one) with true
      by (vm_compute; reflexivity).
    simpl. apply single_item_get in Hs as (-> & (len & -> & Hone) & Hv). simpl.
    by rewrite Hone.
Qed.

(** An ok response whose body passes both checks. *)
Lemma parseAPIResponse_accepts response props d v :
  ok response = true →
  json_body response = Fulfilled (JsObj props) →
  lookup_prop props "results" = Some (JsNum one) →
  lookup_prop props "data" = Some d →
  single_item d v →
  parseAPIResponse ToString_json JSON_stringify response = Return (Fulfilled v).
Proof.
  intros Hok Hb Hr Hd Hs. unfold parseAPIResponse. rewrite Hok, Hb. simpl.
  assert (checkJSON ToString_json JSON_stringify (JsObj props) = Return v) as ->; [|done].
  apply checkJSON_Return. by exists props, d.
Qed.

(** X13. [parseAPIResponse] delivers an item exactly when the response is ok,
    its body is an object whose [results] is the number 1 and whose [data]
    has length 1; the item is [data[0]].  The check of line 35 is on the
    length alone, so besides an array of one item a string of one character
    and an object with [length] 1 pass as well, and the item need not be a
    string. *)
Theorem parseAPIResponse_fulfilled (response : Response) (v : option json) :
  parseAPIResponse ToString_json JSON_stringify response = Return (Fulfilled v) ↔
  ok response = true
  ∧ ∃ props d, json_body response = Fulfilled (JsObj props)
      ∧ lookup_prop props "results" = Some (JsNum one)
      ∧ lookup_prop props "data" = Some d
      ∧ single_item d v.
Proof.
  unfold parseAPIResponse. destruct (ok response); simpl; [|by split; [|intros [? _]]].
  destruct (json_body response) as [j|rej]; simpl.
  - destruct (checkJSON _ _ j) as [v'|e] eqn:Hc.
    + apply checkJSON_Return in Hc as (props & d & -> & Hr & Hd & Hs). split.
      * intros [= <-]. split; [done|]. by exists props, d.
      * intros (_ & props' & d' & [= <-] & _ & Hd' & Hs').
        rewrite Hd in Hd'. injection Hd' as <-. do 2 f_equal.
        destruct (single_item_get _ _ Hs) as (_ & _ & H1).
        destruct (single_item_get _ _ Hs') as (_ & _ & H2).
        rewrite H1 in H2. by injection H2.
    + split; [done|]. intros (_ & props & d & [= ->] & Hr & Hd & Hs).
      assert (checkJSON ToString_json JSON_stringify (JsObj props) = Return v) as Hc'.
      { apply checkJSON_Return. by exists props, d. }
      by rewrite Hc in Hc'.
  - split; [done|]. by intros (_ & ? & ? & ? & _).
Qed.

(** X14. Every way [parseAPIResponse] fails: it throws only for a response
    that is not ok, without reading the body; for an ok response the promise
    is rejected with the rejection of [json()] itself, with a TypeError for
    the body null, with the Error of line 32 when [results] is not the number
    1, and otherwise with the Error of line 36. *)
Theorem parseAPIResponse_failures (response : Response) :
  match parseAPIResponse ToString_json JSON_stringify response with
  | Throw e =>
      ok response = false ∧ e = Error "ERROR: Network response was not ok"
  | Return (Rejected rej) =>
      ok response = true
      ∧ (json_body response = Rejected rej
         ∨ (json_body response = Fulfilled JsNull
            ∧ rej = Exception
                (TypeError "Cannot read properties of null (reading 'results')"))
         ∨ (∃ j r, json_body response = Fulfilled j
            ∧ get (Some j) K_results = Return r ∧ r ≠ Some (JsNum one)
            ∧ rej = Exception
                (Error ("ERROR: Invalid result: " +:+ template ToString_json r)))
         ∨ (∃ j d, json_body response = Fulfilled j
            ∧ get (Some j) K_results = Return (Some (JsNum one))
            ∧ get (Some j) K_data = Return d
            ∧ rej = Exception
                (Error ("ERROR: Invalid data: " +:+ template JSON_stringify d))))
  | Return (Fulfilled _) => ok response = true
  end.
Proof.
  unfold parseAPIResponse. destruct (ok response); simpl; [|done].
  destruct (json_body response) as [j|rej]; simpl; [|by split; [|left]].
  destruct (checkJSON _ _ j) as [v|e] eqn:Hc; [done|]. split; [done|]. right.
  unfold checkJSON in Hc.
  destruct (get (Some j) K_results) as [r|e'] eqn:Hr.
  - right. simpl in Hc.
    destruct (strict_equal_number r one) eqn:Hone.
    + apply strict_equal_one in Hone as ->.
      replace (ToBoolean (Some (JsNum one))) with true in Hc
        by (vm_compute; reflexivity).
      simpl in Hc. right. exists j.
      destruct (get (Some j) K_data) as [d|e''] eqn:Hd.
      * exists d. repeat split; try done. simpl in Hc.
        destruct (ToBoolean d) eqn:Ht; simpl in Hc.
        -- destruct d as [d|]; [|done].
           destruct (get (Some d) K_length) as [len|] eqn:Hlen.
           ++ simpl in Hc. destruct (strict_equal_number len one) eqn:Hl; simpl in Hc.
              ** exfalso. unfold get in Hc. by destruct d.
              ** by injection Hc as <-.
           ++ exfalso. unfold get in Hlen. by destruct d.
        -- by injection Hc as <-.
      * exfalso. unfold get in Hr, Hd. by destruct j.
    + left. exists j, r. repeat split; try done.
      * intros ->. revert Hone. vm_compute. done.
      * rewrite orb_true_r in Hc. by injection Hc as <-.
  - left. unfold get in Hr. destruct j; try done. split; [done|].
    injection Hr as <-. simpl in Hc. by injection Hc as <-.
Qed.

(** X15. The chain of [getResults] asks for airport CYTZ; when the answer is
    ok and its body holds [results] 1 and in [data] one string with at least
    four spaces, the chain delivers the parse of that string, with the string
    itself in [METAR]. *)
Theorem parsedWeather_delivers (response : Response)
    (props : list (string * json)) (s : string) :
  fetch {| url := "https://api.checkwx.com/metar/CYTZ"; method := "GET";
           headers := [("Accept", "application/json");
                       ("X-API-Key", "19b4970bb56b0460a4130b5b67")] |}
  = Fulfilled response →
  ok response = true →
  json_body response = Fulfilled (JsObj props) →
  lookup_prop props "results" = Some (JsNum one) →
  lookup_prop props "data" = Some (JsArr [JsStr s]) →
  (4 ≤ count_char " " s)%nat →
  ∃ o, parsedWeather fetch ToString_json JSON_stringify = Fulfilled o
     ∧ parseMETAR (JString s) = Return o ∧ METAR o = s.
Proof.
  intros Hf Hok Hb Hr Hd Hn.
  assert (Hp : parseAPIResponse ToString_json JSON_stringify response
               = Return (Fulfilled (Some (JsStr s)))).
  { apply (parseAPIResponse_accepts _ props (JsArr [JsStr s])); try done.
    left. by eexists. }
  assert (5 ≤ length (split s " "))%nat as Hn' by (rewrite split_length; lia).
  destruct (parseMETAR_many_tokens s Hn') as (o & Ho & HM).
  exists o. unfold parsedWeather, getWeather. simpl.
  change (API_URL +:+ "CYTZ") with "https://api.checkwx.com/metar/CYTZ".
  change API_KEY with "19b4970bb56b0460a4130b5b67".
  rewrite Hf. simpl. rewrite Hp. simpl. by rewrite Ho.
Qed.

(** X16. The item of the answer is handed to [parseMETAR] as it is: when it
    is not a string (a number, null, an array, an object, or nothing at all
    for an object with [length] 1 and no key 0) the chain is rejected with
    the Error of line 60. *)
Theorem parsedWeather_item_not_string (response : Response) (v : option json) :
  fetch {| url := "https://api.checkwx.com/metar/CYTZ"; method := "GET";
           headers := [("Accept", "application/json");
                       ("X-API-Key", "19b4970bb56b0460a4130b5b67")] |}
  = Fulfilled response →
  parseAPIResponse ToString_json JSON_stringify response = Return (Fulfilled v) →
  (∀ s, v ≠ Some (JsStr s)) →
  parsedWeather fetch ToString_json JSON_stringify
  = Rejected (Exception (Error "ERROR: Invalid data; must be a string")).
Proof.
  intros Hf Hp Hv. unfold parsedWeather, getWeather. simpl.
  change (API_URL +:+ "CYTZ") with "https://api.checkwx.com/metar/CYTZ".
  change API_KEY with "19b4970bb56b0460a4130b5b67".
  rewrite Hf. simpl. rewrite Hp. simpl.
  destruct v as [[| | |s| |]|]; try done. by destruct (Hv s).
Qed.

(** X17. A body whose [data] is a string of one character passes the check
    of line 35 as if it were an array of one report; the parser then gets
    that character and the chain is rejected with the TypeError of line
    126. *)
Theorem parsedWeather_data_one_character (response : Response)
    (props : list (string * json)) (c : ascii) :
  fetch {| url := "https://api.checkwx.com/metar/CYTZ"; method := "GET";
           headers := [("Accept", "application/json");
                       ("X-API-Key", "19b4970bb56b0460a4130b5b67")] |}
  = Fulfilled response →
  ok response = true →
  json_body response = Fulfilled (JsObj props) →
  lookup_prop props "results" = Some (JsNum one) →
  lookup_prop props "data" = Some (JsStr (String c "")) →
  parseAPIResponse ToString_json JSON_stringify response
  = Return (Fulfilled (Some (JsStr (String c ""))))
  ∧ parsedWeather fetch ToString_json JSON_stringify
    = Rejected (Exception
        (TypeError "Cannot read properties of undefined (reading 'length')")).
Proof.
  intros Hf Hok Hb Hr Hd.
  assert (Hp : parseAPIResponse ToString_json JSON_stringify response
               = Return (Fulfilled (Some (JsStr (String c ""))))).
  { apply (parseAPIResponse_accepts _ props (JsStr (String c ""))); try done.
    right; left. by exists c. }
  split; [done|]. unfold parsedWeather, getWeather. simpl.
  change (API_URL +:+ "CYTZ") with "https://api.checkwx.com/metar/CYTZ".
  change API_KEY with "19b4970bb56b0460a4130b5b67".
  rewrite Hf. simpl. rewrite Hp. simpl.
  rewrite parseMETAR_few_tokens; [done|].
  rewrite split_length. simpl. destruct (Ascii.eqb c " "); simpl; lia.
Qed.

(** X18. What goes wrong before the parser stays as it is: a rejected
    [fetch] rejects the chain with the same reason, and for a response that
    is not ok the Error thrown at line 16 becomes the rejection; in both
    cases [json()] is not looked at. *)
Theorem parsedWeather_network_failure :
  (∀ rej,
     fetch {| url := "https://api.checkwx.com/metar/CYTZ"; method := "GET";
              headers := [("Accept", "application/json");
                          ("X-API-Key", "19b4970bb56b0460a4130b5b67")] |}
     = Rejected rej →
     parsedWeather fetch ToString_json JSON_stringify = Rejected rej)
  ∧ (∀ response,
     fetch {| url := "https://api.checkwx.com/metar/CYTZ"; method := "GET";
              headers := [("Accept", "application/json");
                          ("X-API-Key", "19b4970bb56b0460a4130b5b67")] |}
     = Fulfilled response →
     ok response = false →
     parsedWeather fetch ToString_json JSON_stringify
     = Rejected (Exception (Error "ERROR: Network response was not ok"))).
Proof.
  split.
  - intros rej Hf. unfold parsedWeather, getWeather. simpl.
    change (API_URL +:+ "CYTZ") with "https://api.checkwx.com/metar/CYTZ".
    change API_KEY with "19b4970bb56b0460a4130b5b67".
    by rewrite Hf.
  - intros response Hf Hok. unfold parsedWeather, getWeather. simpl.
    change (API_URL +:+ "CYTZ") with "https://api.checkwx.com/metar/CYTZ".
    change API_KEY with "19b4970bb56b0460a4130b5b67".
    rewrite Hf. unfold then_promise, parseAPIResponse. by rewrite Hok.
Qed.
End api.

Lemma parseAPIResponse_fulfilled_witness :
  parseAPIResponse (λ _, "") (λ _, "") (answer (JsArr [JsStr "CYTZ 051900Z AUTO 17011KT"]))
  = Return (Fulfilled (Some (JsStr "CYTZ 051900Z AUTO 17011KT"))).
Proof.
  apply (proj2 (parseAPIResponse_fulfilled (λ _, "") (λ _, "")
                  (answer (JsArr [JsStr "CYTZ 051900Z AUTO 17011KT"]))
                  (Some (JsStr "CYTZ 051900Z AUTO 17011KT")))).
  split; [reflexivity|].
  exists [("results", JsNum one); ("data", JsArr [JsStr "CYTZ 051900Z AUTO 17011KT"])],
         (JsArr [JsStr "CYTZ 051900Z AUTO 17011KT"]).
  repeat split; try reflexivity. left. eexists; split; reflexivity.
Defined.

Lemma parsedWeather_delivers_witness :
  ∃ o, parsedWeather (λ _, Fulfilled (answer (JsArr [JsStr "CYTZ 051900Z AUTO 17011KT 9SM"])))
                     (λ _, "") (λ _, "") = Fulfilled o
     ∧ parseMETAR (JString "CYTZ 051900Z AUTO 17011KT 9SM") = Return o
     ∧ METAR o = "CYTZ 051900Z AUTO 17011KT 9SM".
Proof.
  apply (parsedWeather_delivers (λ _, "") (λ _, "")
           (λ _, Fulfilled (answer (JsArr [JsStr "CYTZ 051900Z AUTO 17011KT 9SM"])))
           (answer (JsArr [JsStr "CYTZ 051900Z AUTO 17011KT 9SM"]))
           [("results", JsNum one); ("data", JsArr [JsStr "CYTZ 051900Z AUTO 17011KT 9SM"])]
           "CYTZ 051900Z AUTO 17011KT 9SM"); try reflexivity; simpl; lia.
Defined.

Lemma parsedWeather_item_not_string_witness :
  parsedWeather (λ _, Fulfilled (answer (JsArr [JsNum one]))) (λ _, "") (λ _, "")
  = Rejected (Exception (Error "ERROR: Invalid data; must be a string")).
Proof.
  apply (parsedWeather_item_not_string (λ _, "") (λ _, "")
           (λ _, Fulfilled (answer (JsArr [JsNum one])))
           (answer (JsArr [JsNum one])) (Some (JsNum one))).
  - reflexivity.
  - vm_compute; reflexivity.
  - intros s; discriminate.
Defined.

Lemma parsedWeather_data_one_character_witness :
  parseAPIResponse (λ _, "") (λ _, "") (answer (JsStr "X"))
  = Return (Fulfilled (Some (JsStr "X")))
  ∧ parsedWeather (λ _, Fulfilled (answer (JsStr "X"))) (λ _, "") (λ _, "")
    = Rejected (Exception
        (TypeError "Cannot read properties of undefined (reading 'length')")).
Proof.
  apply (parsedWeather_data_one_character (λ _, "") (λ _, "")
           (λ _, Fulfilled (answer (JsStr "X"))) (answer (JsStr "X"))
           [("results", JsNum one); ("data", JsStr "X")] "X"%char); reflexivity.
Defined.

Lemma parsedWeather_network_failure_witness :
  parsedWeather (λ _, Rejected (PlatformError "TypeError" "Failed to fetch"))
                (λ _, "") (λ _, "")
  = Rejected (PlatformError "TypeError" "Failed to fetch")
  ∧ parsedWeather (λ _, Fulfilled {| ok := false; json_body := Fulfilled JsNull |})
                  (λ _, "") (λ _, "")
    = Rejected (Exception (Error "ERROR: Network response was not ok")).
Proof.
  split.
  - apply (proj1 (parsedWeather_network_failure (λ _, "") (λ _, "")
                    (λ _, Rejected (PlatformError "TypeError" "Failed to fetch")))).
    reflexivity.
  - apply (proj2 (parsedWeather_network_failure (λ _, "") (λ _, "")
                    (λ _, Fulfilled {| ok := false; json_body := Fulfilled JsNull |}))
             {| ok := false; json_body := Fulfilled JsNull |}); reflexivity.
Defined.

(** ** The page, verified *)

Lemma removeChildren_all e n :
  (length (childNodes e) ≤ n)%nat →
  removeChildren n e = {| tagName := tagName e; childNodes := [] |}.
Proof.
  revert e. induction n as [|n IH]; intros [tag children] Hn; simpl in *.
  - destruct children; [done|]. simpl in Hn. lia.
  - destruct children as [|c children]; [done|].
    unfold hasChildNodes. simpl. rewrite IH; [done|]. simpl in *. lia.
Qed.

(** X19. [setNodeText] accepts every element, paragraph or not, and throws
    its Error for nothing at all: whatever the element held before, it holds
    the one new text afterwards.  For [null] the call ends in a TypeError. *)
Theorem setNodeText_any_element :
  (∀ e text,
     setNodeText (Some e) text
     = Return {| tagName := tagName e; childNodes := [Text text] |})
  ∧ (∀ node text,
     setNodeText node text
     ≠ Throw (Error "Invalid node; should be an instance of HTMLParagraphElement"))
  ∧ (∀ text,
     setNodeText None text
     = Throw (TypeError "Cannot read properties of null (reading 'hasChildNodes')")).
Proof.
  assert (H1 : ∀ e text,
     setNodeText (Some e) text
     = Return {| tagName := tagName e; childNodes := [Text text] |}).
  { intros e text. unfold setNodeText. simpl.
    destruct (hasChildNodes e) eqn:Hc.
    - by rewrite removeChildren_all.
    - destruct e as [tag [|? ?]]; done. }
  split; [done|]. split; [|done].
  intros [e|] text; [by rewrite H1|done].
Qed.
